(** * Loan-approval model servers

    A shallow embedding of the three inference adapters of the repository
    ([flask_model_server.py], [seldon_model.py], [model_server.py]) and of the
    R prediction routine they hand to [Rscript].

    - Python values are an inductive type [pyval]; the dynamic operations the
      adapters use ([in], subscripting, iteration, truth value) are functions
      on it that raise the exceptions Python raises.
    - R and Python numbers are IEEE binary64 values (primitive floats).
    - The worker process, the JSON parser and the name of the temporary file
      are the environment, a record every operation takes: every statement
      holds for whatever the environment does.
    - What an R script prints is its result list passed through toJSON;
      how jsonlite prints a number is an argument of that output.
    - The file system is a finite set of existing paths. *)

From Stdlib Require Import Floats ZArith String List Ascii Bool Lia.
From stdpp Require Import gmap strings list.
Import ListNotations.

Local Open Scope string_scope.
Local Open Scope Z_scope.

Set Warnings "-register-all,-clear-no-such-hyp".

(** ** Exceptions and the error monad *)

Inductive exn : Type :=
| TypeError
| KeyError
| IndexError
| AttributeError
| OverflowError
| ValueError (msg : string)
| RuntimeError (msg : string)
| JSONDecodeError
| TimeoutExpired
| OtherException (name : string).

Inductive result (A : Type) : Type :=
| Ok (a : A)
| Raise (e : exn).
Arguments Ok {A} a.
Arguments Raise {A} e.

Definition bind {A B : Type} (m : result A) (k : A -> result B) : result B :=
  match m with
  | Ok a => k a
  | Raise e => Raise e
  end.

Notation "'let*' x ':=' m 'in' k" := (bind m (fun x => k))
  (at level 10, x name, m at level 100, k at level 200).

(** The text an error response carries: a literal, or [str(e)] of a caught
    exception whose wording belongs to the Python runtime. *)
Inductive error_text : Type :=
| Text (s : string)
| StrOf (e : exn).

(** [str(e)]: the exceptions the sources raise themselves carry their
    message. *)
Definition py_str_exn (e : exn) : error_text :=
  match e with
  | ValueError m => Text m
  | RuntimeError m => Text m
  | _ => StrOf e
  end.

(** ** Python values *)

Inductive pyval : Type :=
| PNone
| PBool (b : bool)
| PInt (z : Z)
| PFloat (f : float)
| PStr (s : string)
| PList (l : list pyval)
| PDict (kvs : list (string * pyval))
| PNpInt (z : Z)
| PNpBool (b : bool)
| PNdarray (shape : list nat) (flat : list pyval).

(** A [dict] is its items in insertion order; keys are strings, as in a
    parsed JSON object and in [dict(zip(feature_names, ...))]. *)
Fixpoint dict_get (kvs : list (string * pyval)) (k : string) : option pyval :=
  match kvs with
  | [] => None
  | (k', v) :: rest => if String.eqb k' k then Some v else dict_get rest k
  end.

Definition dict_has (kvs : list (string * pyval)) (k : string) : bool :=
  match dict_get kvs k with
  | Some _ => true
  | None => false
  end.

Definition is_str (v : pyval) (s : string) : bool :=
  match v with
  | PStr s' => String.eqb s' s
  | _ => false
  end.

Definition is_substring (needle hay : string) : bool :=
  match String.index 0 needle hay with
  | Some _ => true
  | None => false
  end.

(** The characters of a string, one per byte: the strings met here are
    ASCII, where a byte is a code point. *)
Definition chars (s : string) : list pyval :=
  map (fun c => PStr (String c EmptyString)) (list_ascii_of_string s).

(** What iterating a one-dimensional array yields: numpy scalars.
    [numpy.float64] and [numpy.str_] are subclasses of [float] and [str];
    [numpy.int64] and [numpy.bool_] are not subclasses of [int].
    An array carries no dtype here: its integer items stand for an integer
    dtype, its float items for float64; arrays of the narrower float dtypes
    and object arrays are not represented. *)
Definition np_scalar (v : pyval) : pyval :=
  match v with
  | PInt z => PNpInt z
  | PBool b => PNpBool b
  | _ => v
  end.

Definition prod_shape (shape : list nat) : nat := fold_right Nat.mul 1%nat shape.

Fixpoint chunk (n k : nat) (l : list pyval) : list (list pyval) :=
  match n with
  | O => []
  | S n' => firstn k l :: chunk n' k (skipn k l)
  end.

(** The items of an array along its first axis. *)
Definition nd_rows (shape : list nat) (flat : list pyval) : result (list pyval) :=
  match shape with
  | [] => Raise TypeError
  | [n] => Ok (map np_scalar (firstn n flat))
  | n :: sh => Ok (map (PNdarray sh) (chunk n (prod_shape sh) flat))
  end.

(** [a.tolist()]: nested lists of Python scalars. *)
Fixpoint nd_tolist (shape : list nat) (flat : list pyval) : pyval :=
  match shape with
  | [] => hd PNone flat
  | n :: sh => PList (map (nd_tolist sh) (chunk n (prod_shape sh) flat))
  end.

(** [key in v] for a string [key]. *)
Definition py_contains (v : pyval) (key : string) : result bool :=
  match v with
  | PDict kvs => Ok (dict_has kvs key)
  | PList l => Ok (existsb (fun x => is_str x key) l)
  | PStr s => Ok (is_substring key s)
  | PNdarray _ flat => Ok (existsb (fun x => is_str x key) flat)
  | _ => Raise TypeError
  end.

(** [v[key]] for a string [key]. *)
Definition py_getitem (v : pyval) (key : string) : result pyval :=
  match v with
  | PDict kvs =>
      match dict_get kvs key with
      | Some x => Ok x
      | None => Raise KeyError
      end
  | PNdarray _ _ | PNpInt _ | PNpBool _ => Raise IndexError
  | _ => Raise TypeError
  end.

(** [v[0]]. *)
Definition py_getitem0 (v : pyval) : result pyval :=
  match v with
  | PList l =>
      match l with
      | x :: _ => Ok x
      | [] => Raise IndexError
      end
  | PStr s =>
      match s with
      | String c _ => Ok (PStr (String c EmptyString))
      | EmptyString => Raise IndexError
      end
  | PDict _ => Raise KeyError
  | PNdarray shape flat =>
      match nd_rows shape flat with
      | Ok (x :: _) => Ok x
      | _ => Raise IndexError
      end
  | PNpInt _ | PNpBool _ => Raise IndexError
  | _ => Raise TypeError
  end.

(** The items [zip] draws from [v]. *)
Definition py_iter (v : pyval) : result (list pyval) :=
  match v with
  | PList l => Ok l
  | PStr s => Ok (chars s)
  | PDict kvs => Ok (map (fun kv => PStr (fst kv)) kvs)
  | PNdarray shape flat => nd_rows shape flat
  | _ => Raise TypeError
  end.

(** [dict(zip(names, values))]; the names are pairwise distinct. *)
Definition dict_zip (names : list string) (values : list pyval) : pyval :=
  PDict (combine names values).

(** [len(v)] and [v[:n]], for the lists and arrays they are applied to. *)
Definition py_len (v : pyval) : result nat :=
  match v with
  | PList l => Ok (length l)
  | PNdarray (n :: _) _ => Ok n
  | _ => Raise TypeError
  end.

Definition py_slice_to (v : pyval) (n : nat) : result pyval :=
  match v with
  | PList l => Ok (PList (firstn n l))
  | PNdarray (m :: sh) flat =>
      Ok (PNdarray (Nat.min n m :: sh) (firstn (Nat.min n m * prod_shape sh) flat))
  | _ => Raise TypeError
  end.

(** [bool(v)], as [if not data] takes it. *)
Definition py_truthy (v : pyval) : result bool :=
  match v with
  | PNone => Ok false
  | PBool b => Ok b
  | PInt z => Ok (negb (z =? 0))
  | PFloat f => Ok (negb (PrimFloat.eqb f 0%float))
  | PStr s => Ok (negb (String.eqb s ""))
  | PList l => Ok (match l with [] => false | _ => true end)
  | PDict kvs => Ok (match kvs with [] => false | _ => true end)
  | PNpInt z => Ok (negb (z =? 0))
  | PNpBool b => Ok b
  | PNdarray _ flat =>
      match flat with
      | [] => Ok false
      | [x] =>
          match x with
          | PBool b => Ok b
          | PInt z => Ok (negb (z =? 0))
          | PFloat f => Ok (negb (PrimFloat.eqb f 0%float))
          | _ => Raise TypeError
          end
      | _ => Raise (ValueError "The truth value of an array with more than one element is ambiguous")
      end
  end.

(** ** Numbers

    Python floats are binary64; an [int] converts to the nearest one and
    raises [OverflowError] when it is out of range. *)

Definition float_of_Z (z : Z) : result float :=
  let f := SF2Prim (binary_normalize 53 1024 z 0 false) in
  if PrimFloat.is_infinity f then Raise OverflowError else Ok f.

Definition float_of_bool (b : bool) : float := if b then 1%float else 0%float.

(** [float(v)] as arithmetic and the [f] format take it; the operand is a
    parsed JSON value. *)
Definition py_float (v : pyval) : result float :=
  match v with
  | PFloat f => Ok f
  | PInt z => float_of_Z z
  | PBool b => Ok (float_of_bool b)
  | _ => Raise TypeError
  end.

(** [f"{v:.2f}"]: the text is only logged, the exception matters. A [str]
    is refused with [ValueError], other non-numbers with [TypeError]. *)
Definition py_format_f (v : pyval) : result unit :=
  match v with
  | PStr _ => Raise (ValueError "Unknown format code 'f' for object of type 'str'")
  | _ => let* _ := py_float v in Ok tt
  end.

(** ** JSON text

    A JSON text is identified with the document it spells. [json.dumps] and
    [json.dump] raise [TypeError] on a value that is no JSON document. *)

Fixpoint json_serializable (v : pyval) : bool :=
  match v with
  | PNone | PBool _ | PInt _ | PFloat _ | PStr _ => true
  | PList l => forallb json_serializable l
  | PDict kvs => forallb (fun kv => json_serializable (snd kv)) kvs
  | PNpInt _ | PNpBool _ | PNdarray _ _ => false
  end.

Inductive json_text : Type := JsonText (doc : pyval).

Definition json_dumps (v : pyval) : result json_text :=
  if json_serializable v then Ok (JsonText v) else Raise TypeError.

(** [s.strip()], for ASCII white space. *)
Definition is_space (c : ascii) : bool :=
  let n := nat_of_ascii c in
  ((9 <=? n)%nat && (n <=? 13)%nat) || ((28 <=? n)%nat && (n <=? 32)%nat).

Fixpoint lstrip (s : string) : string :=
  match s with
  | String c rest => if is_space c then lstrip rest else s
  | EmptyString => EmptyString
  end.

Fixpoint rstrip (s : string) : string :=
  match s with
  | String c rest =>
      match rstrip rest with
      | EmptyString => if is_space c then EmptyString else String c EmptyString
      | rest' => String c rest'
      end
  | EmptyString => EmptyString
  end.

Definition strip (s : string) : string := rstrip (lstrip s).

(** ** The environment *)

Inductive worker_script : Type :=
| flask_script
| seldon_script
| model_server_script.

(** [subprocess.run(['Rscript', '-e', script, *args], input=..., timeout=...)] *)
Record command : Type := Rscript {
  script : worker_script;
  args : list json_text;
  input : option json_text;
  timeout : Z
}.

Record CompletedProcess : Type := {
  returncode : Z;
  stdout : string;
  stderr : string
}.

(** [subprocess_run] raises [TimeoutExpired] after it has killed a child
    that outlived [timeout]; [json_loads] is [None] where [json.loads]
    raises [JSONDecodeError]; [tmp_name] is the path
    [tempfile.NamedTemporaryFile] creates. *)
Record environment : Type := {
  subprocess_run : command -> result CompletedProcess;
  json_loads : string -> option pyval;
  tmp_name : string
}.

(** ** The R prediction routine

    [prob_approved] is the class probability the random forest gives; the
    three listed fields are computed from it. A comparison with NaN is [NA],
    and so is the [ifelse] of it. *)

Inductive r_list : Type := Rlist (probability : float) (prediction : option string) (confidence : float).

Definition r_gt (x y : float) : option bool :=
  match PrimFloat.compare x y with
  | FGt => Some true
  | FNotComparable => None
  | _ => Some false
  end.

Definition ifelse (test : option bool) (yes no : string) : option string :=
  match test with
  | Some true => Some yes
  | Some false => Some no
  | None => None
  end.

(** [toJSON(result, auto_unbox = TRUE)]: an object of the three fields of
    the list, each a scalar; a missing label is null. jsonlite prints a
    number at its default precision, [digits = 4]; [number] is the value
    Python reads back from what it prints. *)
Definition toJSON (number : float -> pyval) (result : r_list) : json_text :=
  match result with
  | Rlist probability prediction confidence =>
      JsonText (PDict [("probability", number probability);
                       ("prediction", match prediction with
                                      | Some label => PStr label
                                      | None => PNone
                                      end);
                       ("confidence", number confidence)])
  end.

(** ** Descriptions the servers publish

    A tensor of the metadata, the metadata dictionary, and the dictionary
    of the root endpoint. *)

Record tensor : Type := {
  tensor_name : string;
  datatype : string;
  tensor_shape : list Z
}.

Record model_metadata : Type := {
  metadata_name : string;
  versions : list string;
  platform : string;
  inputs : list tensor;
  outputs : list tensor
}.

Record api_description : Type := {
  message : string;
  version : string;
  endpoints : list (string * string);
  example_request : pyval
}.

(** ** flask_model_server.py *)

Module flask_model_server.

Definition feature_names : list string :=
  ["age"; "income"; "education"; "experience"; "credit_score"].

Definition model_file : string := "/app/model/flask_random_forest.rds".

(** The list [predict_loan] returns in [r_prediction_script]. *)
Definition predict_loan (prob_approved : float) : r_list :=
  Rlist prob_approved
        (ifelse (r_gt prob_approved 0.5%float) "approved" "denied")
        (PrimFloat.abs (prob_approved - 0.5) * 2)%float.

(** The JSON bodies the endpoints answer with. *)
Inductive body : Type :=
| ErrorBody (error : error_text)
| Unhealthy (message : string) (model_loaded : bool)
| Healthy (model_loaded : bool) (version : string)
| Predictions (probability prediction confidence input : pyval)
              (model_name model_version : string).

Definition response : Type := body * Z.

(** [health()]: the global [model_ready] is declared and not read;
    [os.path.exists] does not raise, so the handler of the [try] is never
    entered. *)
Definition health (model_ready : bool) (fs : gset string) : response :=
  let model_exists := bool_decide (model_file ∈ fs) in
  if negb model_exists then (Unhealthy "Model file not found" false, 503)
  else (Healthy true "1.0.0", 200).

(** Lines 103-116: the record of a request body. *)
Definition resolve_instance (data : pyval) : result pyval :=
  let* has_instances := py_contains data "instances" in
  if has_instances then
    let* instances := py_getitem data "instances" in
    py_getitem0 instances
  else
    let* has_data := py_contains data "data" in
    if has_data then
      let* d := py_getitem data "data" in
      let* has_ndarray := py_contains d "ndarray" in
      if has_ndarray then
        let* d := py_getitem data "data" in
        let* nd := py_getitem d "ndarray" in
        let* values := py_getitem0 nd in
        let* items := py_iter values in
        Ok (dict_zip feature_names items)
      else
        py_getitem data "data"
    else
      Ok data.

(** Lines 121-123: the first name of [names] that is not in [instance]. *)
Fixpoint missing_feature (names : list string) (instance : pyval) : result (option string) :=
  match names with
  | [] => Ok None
  | feature :: rest =>
      let* present := py_contains instance feature in
      if present then missing_feature rest instance else Ok (Some feature)
  end.

(** Lines 128-160, the body of the inner [try]. *)
Definition run_prediction (env : environment) (instance : pyval) : result response :=
  let* text := json_dumps instance in
  let* process := subprocess_run env (Rscript flask_script [] (Some text) 30) in
  if negb (returncode process =? 0) then
    Ok (ErrorBody (Text ("R prediction failed: " ++ stderr process)), 500)
  else
    match json_loads env (strip (stdout process)) with
    | None => Ok (ErrorBody (Text "Invalid JSON from R script"), 500)
    | Some result =>
        let* probability := py_getitem result "probability" in
        let* prediction := py_getitem result "prediction" in
        let* confidence := py_getitem result "confidence" in
        let* _ := py_format_f confidence in
        Ok (Predictions probability prediction confidence instance
                        "loan-approval-rf" "1.0.0", 200)
    end.

(** Lines 126-166: the inner [try] with its two handlers. *)
Definition try_prediction (env : environment) (instance : pyval) : response :=
  match run_prediction env instance with
  | Ok r => r
  | Raise TimeoutExpired => (ErrorBody (Text "Prediction timeout"), 504)
  | Raise e => (ErrorBody (py_str_exn e), 500)
  end.

(** [predict()]; [get_json] is what [request.get_json()] gives. *)
Definition predict (env : environment) (get_json : result pyval) : response :=
  let outcome :=
    let* data := get_json in
    let* nonempty := py_truthy data in
    if negb nonempty then Ok (ErrorBody (Text "No JSON data provided"), 400)
    else
      let* instance := resolve_instance data in
      let* missing := missing_feature feature_names instance in
      match missing with
      | Some feature => Ok (ErrorBody (Text ("Missing required feature: " ++ feature)), 400)
      | None => Ok (try_prediction env instance)
      end
  in
  match outcome with
  | Ok r => r
  | Raise e => (ErrorBody (py_str_exn e), 500)
  end.

(** What [r_prediction_script] writes to its standard output, its last
    line: [cat(toJSON(result, auto_unbox = TRUE))]. *)
Definition script_output (number : float -> pyval) (prob_approved : float) : json_text :=
  toJSON number (predict_loan prob_approved).

(** [metadata()] *)
Definition metadata : model_metadata * Z :=
  ({| metadata_name := "loan-approval-model";
      versions := ["1.0.0"];
      platform := "R + RandomForest";
      inputs := [ {| tensor_name := "age"; datatype := "INT"; tensor_shape := [1] |};
                  {| tensor_name := "income"; datatype := "INT"; tensor_shape := [1] |};
                  {| tensor_name := "education"; datatype := "INT"; tensor_shape := [1] |};
                  {| tensor_name := "experience"; datatype := "INT"; tensor_shape := [1] |};
                  {| tensor_name := "credit_score"; datatype := "INT"; tensor_shape := [1] |} ];
      outputs := [ {| tensor_name := "prediction"; datatype := "STR"; tensor_shape := [1] |};
                   {| tensor_name := "probability"; datatype := "FP64"; tensor_shape := [1] |};
                   {| tensor_name := "confidence"; datatype := "FP64"; tensor_shape := [1] |} ] |},
   200).

(** [root()] *)
Definition root : api_description * Z :=
  ({| message := "Loan Approval Model Server";
      version := "1.0.0";
      endpoints := [("health", "GET /health - Health check");
                    ("predict", "POST /predict - Make predictions");
                    ("metadata", "GET /metadata - Model information")];
      example_request := PDict [("age", PInt 35); ("income", PInt 75000);
                                ("education", PInt 16); ("experience", PInt 10);
                                ("credit_score", PInt 750)] |},
   200).

End flask_model_server.

(** ** seldon_model.py *)

Module seldon_model.

Definition feature_names : list string :=
  ["age"; "income"; "education"; "experience"; "credit_score"].

Definition model_file : string := "/app/model/flask_random_forest.rds".

(** The list [result] of [r_script]. *)
Definition r_script (prob_approved : float) : r_list :=
  Rlist prob_approved
        (ifelse (r_gt prob_approved 0.5%float) "approved" "denied")
        (PrimFloat.abs (prob_approved - 0.5) * 2)%float.

(** A float array of one row: [np.array([[a, b]])]. *)
Definition np_array (a b : float) : list (list float) := [[a; b]].

(** Lines 79-90. A list has no [shape]; an array of one axis is taken
    whole, of any other number of axes by its first item. *)
Definition input_dict (X : pyval) : result pyval :=
  match X with
  | PList _ => Raise AttributeError
  | PNdarray shape flat =>
      let* values :=
        if (length shape =? 1)%nat then Ok (nd_tolist shape flat)
        else
          let* x0 := py_getitem0 X in
          match x0 with
          | PNdarray sh fl => Ok (nd_tolist sh fl)
          | _ => Ok x0
          end
      in
      let* items := py_iter values in
      Ok (dict_zip feature_names items)
  | _ => Raise (ValueError "Unsupported input format")
  end.

(** Lines 96-117, the body of the inner [try]. *)
Definition run_prediction (env : environment) (input_data : pyval) : result (list (list float)) :=
  let* text := json_dumps input_data in
  let* process := subprocess_run env (Rscript seldon_script [text] None 30) in
  if negb (returncode process =? 0) then
    Ok (np_array 0.5 0.5)
  else
    match json_loads env (strip (stdout process)) with
    | None => Raise JSONDecodeError
    | Some result =>
        let* p := py_getitem result "probability" in
        let* p := py_float p in
        let prob_denied := (1.0 - p)%float in
        let* prob_approved := py_getitem result "probability" in
        let* _ := py_getitem result "prediction" in
        let* _ := py_format_f prob_approved in
        let* prob_approved := py_float prob_approved in
        Ok (np_array prob_denied prob_approved)
    end.

(** [LoanApprovalModel.predict]: every handler returns the same array. *)
Definition predict (env : environment) (X : pyval) : list (list float) :=
  let outcome :=
    let* input_data := input_dict X in
    Ok (match run_prediction env input_data with
        | Ok a => a
        | Raise TimeoutExpired => np_array 0.5 0.5
        | Raise _ => np_array 0.5 0.5
        end)
  in
  match outcome with
  | Ok a => a
  | Raise _ => np_array 0.5 0.5
  end.

(** [health_status]: (status, model_loaded). *)
Definition health_status (fs : gset string) : string * bool :=
  let model_exists := bool_decide (model_file ∈ fs) in
  (if model_exists then "healthy" else "unhealthy", model_exists).

(** What [r_script] writes to its standard output, its last line:
    [cat(toJSON(result, auto_unbox = TRUE))]. *)
Definition script_output (number : float -> pyval) (prob_approved : float) : json_text :=
  toJSON number (r_script prob_approved).

(** [init_metadata] *)
Definition init_metadata : model_metadata :=
  {| metadata_name := "loan-approval-model";
     versions := ["1.0.0"];
     platform := "seldon-core";
     inputs := [ {| tensor_name := "age"; datatype := "INT32"; tensor_shape := [1] |};
                 {| tensor_name := "income"; datatype := "INT32"; tensor_shape := [1] |};
                 {| tensor_name := "education"; datatype := "INT32"; tensor_shape := [1] |};
                 {| tensor_name := "experience"; datatype := "INT32"; tensor_shape := [1] |};
                 {| tensor_name := "credit_score"; datatype := "INT32"; tensor_shape := [1] |} ];
     outputs := [ {| tensor_name := "probability"; datatype := "FP64"; tensor_shape := [2] |} ] |}.

End seldon_model.

(** ** model_server.py *)

Module model_server.

Definition model_file : string := "/app/model/random_forest_minio.rds".

(** The list [predict_loan] returns in [r_prediction_script]. *)
Definition predict_loan (prob_approved : float) : r_list :=
  Rlist prob_approved
        (ifelse (r_gt prob_approved 0.5%float) "approved" "denied")
        (PrimFloat.abs (prob_approved - 0.5) * 2)%float.

(** [__init__] sets [feature_names] and nothing assigns it again. *)
Definition feature_names : list string :=
  ["age"; "income"; "education"; "experience"; "credit_score"].

Record RModelServer : Type := {
  model_ready : bool;
  r_prediction_script : option worker_script
}.

(** [__init__] *)
Definition init : RModelServer :=
  {| model_ready := false; r_prediction_script := None |}.

(** [load]: stores the script and sets the flag; nothing is read. *)
Definition load (self : RModelServer) : RModelServer :=
  {| model_ready := true; r_prediction_script := Some model_server_script |}.

(** The two dictionaries [predict] returns; the constant
    [feature_importance] table of the first is left out. *)
Inductive response : Type :=
| Prediction (predictions : list pyval) (prediction_class confidence : pyval)
| Error (predictions : list float) (prediction_class : string) (confidence : float)
        (error : error_text).

(** The dictionary of the outer handler. *)
Definition error_response (e : exn) : response :=
  Error [0.0%float] "error" 0.0%float (py_str_exn e).

(** Lines 105-118: the record of [X], validated. *)
Fixpoint require_features (names : list string) (input_data : pyval) : result unit :=
  match names with
  | [] => Ok tt
  | feature :: rest =>
      let* present := py_contains input_data feature in
      if negb present then Raise (ValueError ("Missing required feature: " ++ feature))
      else require_features rest input_data
  end.

Definition input_dict (X : pyval) : result pyval :=
  let* input_data :=
    match X with
    | PDict _ => Ok X
    | PList _ | PNdarray _ _ =>
        let* n := py_len X in
        if (length feature_names <=? n)%nat then
          let* head := py_slice_to X (length feature_names) in
          let* items := py_iter head in
          Ok (dict_zip feature_names items)
        else Raise (ValueError "Input array too short")
    | _ => Raise (ValueError "Unsupported input format")
    end
  in
  let* _ := require_features feature_names input_data in
  Ok input_data.

(** Lines 127-157, the body of the [try] that has the [finally]. *)
Definition run_prediction (env : environment) (input_data : pyval) : result response :=
  let* text := json_dumps input_data in
  let* process := subprocess_run env (Rscript model_server_script [] (Some text) 30) in
  if negb (returncode process =? 0) then
    Raise (RuntimeError ("R prediction failed: " ++ stderr process))
  else
    match json_loads env (strip (stdout process)) with
    | None => Raise JSONDecodeError
    | Some result =>
        let* probability := py_getitem result "probability" in
        let* prediction := py_getitem result "prediction" in
        let* confidence := py_getitem result "confidence" in
        let* _ := py_format_f confidence in
        Ok (Prediction [probability] prediction confidence)
    end.

(** [RModelServer.predict], on the server object and the set of existing
    files: the new server object, the new set of files and the answer. *)
Definition predict (env : environment) (self : RModelServer) (fs : gset string) (X : pyval)
  : RModelServer * gset string * response :=
  let self := if negb (model_ready self) then load self else self in
  match input_dict X with
  | Raise e => (self, fs, error_response e)
  | Ok input_data =>
      (* with tempfile.NamedTemporaryFile(..., delete=False) as f *)
      let input_file := tmp_name env in
      let fs := {[input_file]} ∪ fs in
      match json_dumps input_data with
      | Raise e => (self, fs, error_response e)
      | Ok _ =>
          let outcome := run_prediction env input_data in
          (* finally *)
          let fs := if bool_decide (input_file ∈ fs) then fs ∖ {[input_file]} else fs in
          match outcome with
          | Ok r => (self, fs, r)
          | Raise e => (self, fs, error_response e)
          end
      end
  end.

(** [health_status]: (status, model_loaded, version). *)
Definition health_status (self : RModelServer) : string * bool * string :=
  (if model_ready self then "healthy" else "loading", model_ready self, "1.0.0").

(** What [r_prediction_script] writes to its standard output, its last
    line: [cat(toJSON(result, auto_unbox = TRUE))]. *)
Definition script_output (number : float -> pyval) (prob_approved : float) : json_text :=
  toJSON number (predict_loan prob_approved).

End model_server.

(** ** The specification's reading of the request shapes

    Following the words of section 4.1: a field of a body is a member of a
    JSON object; the shapes are tried in the order instances, data, direct. *)

Definition field (body : pyval) (name : string) : option pyval :=
  match body with
  | PDict kvs => dict_get kvs name
  | _ => None
  end.

Definition spec_resolve (body : pyval) : result pyval :=
  match field body "instances" with
  | Some instances => py_getitem0 instances
  | None =>
      match field body "data" with
      | Some data =>
          let* contains_ndarray := py_contains data "ndarray" in
          if contains_ndarray then
            let* ndarray := py_getitem data "ndarray" in
            let* first_row := py_getitem0 ndarray in
            let* values := py_iter first_row in
            Ok (PDict (combine flask_model_server.feature_names values))
          else Ok data
      | None => Ok body
      end
  end.

(** ** The specification's reading of an invocation

    Following the words of section 4.2, steps 3 to 5: the deadline elapses,
    or the process exits with a non-zero status, or its standard output does
    not parse, or it parses to a document. [Crashed] is [subprocess.run]
    raising anything but [TimeoutExpired]. *)

Inductive outcome : Type :=
| Completed (doc : pyval)
| Timeout
| WorkerError (diagnostic : string)
| MalformedOutput (raw : string)
| Crashed (e : exn).

Definition invoke (env : environment) (cmd : command) : outcome :=
  match subprocess_run env cmd with
  | Raise TimeoutExpired => Timeout
  | Raise e => Crashed e
  | Ok process =>
      if returncode process =? 0 then
        match json_loads env (strip (stdout process)) with
        | Some doc => Completed doc
        | None => MalformedOutput (stdout process)
        end
      else WorkerError (stderr process)
  end.

Definition is_failure (o : outcome) : bool :=
  match o with
  | Completed _ => false
  | _ => true
  end.

(** The probability of a completed invocation whose document has a numeric
    probability and a prediction. *)
Definition worker_probability (o : outcome) : option float :=
  match o with
  | Completed doc =>
      match field doc "probability", field doc "prediction" with
      | Some v, Some _ =>
          match py_float v with
          | Ok p => Some p
          | Raise _ => None
          end
      | _, _ => None
      end
  | _ => None
  end.

(** The command a request leads to, when it leads to one. *)
Definition flask_command (data : pyval) : option command :=
  match py_truthy data with
  | Ok true =>
      match flask_model_server.resolve_instance data with
      | Ok instance =>
          match flask_model_server.missing_feature flask_model_server.feature_names instance with
          | Ok None =>
              match json_dumps instance with
              | Ok text => Some (Rscript flask_script [] (Some text) 30)
              | Raise _ => None
              end
          | _ => None
          end
      | Raise _ => None
      end
  | _ => None
  end.

Definition seldon_command (X : pyval) : option command :=
  match seldon_model.input_dict X with
  | Ok input_data =>
      match json_dumps input_data with
      | Ok text => Some (Rscript seldon_script [text] None 30)
      | Raise _ => None
      end
  | Raise _ => None
  end.

Definition model_server_command (X : pyval) : option command :=
  match model_server.input_dict X with
  | Ok input_data =>
      match json_dumps input_data with
      | Ok text => Some (Rscript model_server_script [] (Some text) 30)
      | Raise _ => None
      end
  | Raise _ => None
  end.

(** A required field the record does not have. *)
Definition absent (record : list (string * pyval)) (feature : string) : bool :=
  negb (dict_has record feature).

(** ** What the specification asks of a prediction

    The probability is the worker's, the label is "approved" exactly above
    one half, the confidence is twice the distance from one half. *)

Definition invariant (p : float) (r : r_list) : Prop :=
  match r with
  | Rlist probability label confidence =>
      probability = p
      /\ (label = Some "approved" <-> (0.5 <? p)%float = true)
      /\ (label = Some "approved" \/ label = Some "denied")
      /\ confidence = (PrimFloat.abs (p - 0.5) * 2)%float
  end.

(** The same asked of the document the worker returns: the label is
    "approved" exactly above one half and the confidence is the number
    abs(p - 0.5) * 2. *)
Definition returned_invariant (p : float) (doc : pyval) : Prop :=
  (field doc "prediction" = Some (PStr "approved") <-> (0.5 <? p)%float = true)
  /\ exists c, field doc "confidence" = Some c
               /\ py_float c = Ok (PrimFloat.abs (p - 0.5) * 2)%float.

(** ** Array-form input

    What the model server takes as an array, [isinstance(X, (list,
    np.ndarray))], and an array whose buffer has the size its shape asks. *)

Definition array_form (X : pyval) : bool :=
  match X with
  | PList _ | PNdarray _ _ => true
  | _ => false
  end.

Definition array_well_formed (X : pyval) : bool :=
  match X with
  | PNdarray shape flat => (length flat =? prod_shape shape)%nat
  | _ => true
  end.

(** ** Sample environments and inputs *)

Module scenario.

Definition quoted (s : string) : string :=
  String (ascii_of_nat 34) s ++ String (ascii_of_nat 34) "".

(** The worker's output for the probabilities 0.75 and 0.5, as text and as
    the document [json.loads] makes of it. *)
Definition text_of (probability label confidence : string) : string :=
  "{" ++ quoted "probability" ++ ":" ++ probability ++ ","
      ++ quoted "prediction" ++ ":" ++ quoted label ++ ","
      ++ quoted "confidence" ++ ":" ++ confidence ++ "}".

Definition approved_text : string := text_of "0.75" "approved" "0.5".
Definition approved_doc : pyval :=
  PDict [("probability", PFloat 0.75); ("prediction", PStr "approved");
         ("confidence", PFloat 0.5)].

Definition half_text : string := text_of "0.5" "denied" "0".
Definition half_doc : pyval :=
  PDict [("probability", PFloat 0.5); ("prediction", PStr "denied");
         ("confidence", PInt 0)].

Definition loads (s : string) : option pyval :=
  if String.eqb s approved_text then Some approved_doc
  else if String.eqb s half_text then Some half_doc
  else None.

(** A printer of numbers after jsonlite at [digits = 4]. A number jsonlite
    prints in fixed notation (magnitude above 1e-5 and below 2^31) becomes
    the nearest decimal with four decimal digits, ties to even, and zero
    becomes 0; the document holds what [json.loads] makes of the decimal, an
    [int] when no decimal digit is left. The other numbers, which jsonlite
    prints in exponent notation or as strings, are passed as they are. *)
Definition round_half_even (n d : Z) : Z :=
  let q := n / d in
  let r := n mod d in
  if 2 * r <? d then q else if d <? 2 * r then q + 1 else if Z.even q then q else q + 1.

Definition fixed4 (m : positive) (e : Z) : option Z :=
  let in_range :=
    if 0 <=? e then Z.pos m * 2 ^ e <? 2147483647
    else (2 ^ (- e) <? Z.pos m * 100000) && (Z.pos m <? 2147483647 * 2 ^ (- e)) in
  if in_range then
    Some (if 0 <=? e then Z.pos m * 10000 * 2 ^ e
          else round_half_even (Z.pos m * 10000) (2 ^ (- e)))
  else None.

Definition decimal4 (negative : bool) (n : Z) : pyval :=
  if n mod 10000 =? 0 then PInt (if negative then - (n / 10000) else n / 10000)
  else
    let x := (SF2Prim (binary_normalize 53 1024 n 0 false) / 10000)%float in
    PFloat (if negative then (- x)%float else x).

Definition digits4 (x : float) : pyval :=
  match Prim2SF x with
  | S754_zero _ => PInt 0
  | S754_finite s m e =>
      match fixed4 m e with
      | Some n => decimal4 s n
      | None => PFloat x
      end
  | _ => PFloat x
  end.

Definition tmp : string := "/tmp/tmpk3v9x2ab.json".

(** A worker that prints [text] and exits with status 0. *)
Definition answers (text : string) : environment :=
  {| subprocess_run := fun _ => Ok {| returncode := 0; stdout := text; stderr := "" |};
     json_loads := loads;
     tmp_name := tmp |}.

(** A worker that exits with status [code], [err] on its standard error. *)
Definition exits (code : Z) (err : string) : environment :=
  {| subprocess_run := fun _ => Ok {| returncode := code; stdout := ""; stderr := err |};
     json_loads := loads;
     tmp_name := tmp |}.

(** A worker that outlives the deadline. *)
Definition times_out : environment :=
  {| subprocess_run := fun _ => Raise TimeoutExpired;
     json_loads := loads;
     tmp_name := tmp |}.

Definition values : list pyval := [PInt 35; PInt 75000; PInt 16; PInt 10; PInt 750].

(** [numpy.array([35, 75000, 16, 10, 750])] *)
Definition array : pyval := PNdarray [5%nat] values.

Definition record : pyval :=
  PDict [("age", PInt 35); ("income", PInt 75000); ("education", PInt 16);
         ("experience", PInt 10); ("credit_score", PInt 750)].

(** The command the model class issues for [array]. *)
Definition seldon_cmd : command := Rscript seldon_script [JsonText record] None 30.

(** The commands the REST server and the model server issue for [record]. *)
Definition flask_cmd : command := Rscript flask_script [] (Some (JsonText record)) 30.
Definition model_server_cmd : command :=
  Rscript model_server_script [] (Some (JsonText record)) 30.

(** A list that holds the five names as its items and has no field. *)
Definition list_of_names : pyval :=
  PList [PStr "age"; PStr "income"; PStr "education"; PStr "experience";
         PStr "credit_score"].

Definition record_without_credit_score : list (string * pyval) :=
  [("age", PInt 35); ("income", PInt 75000); ("education", PInt 16);
   ("experience", PInt 10)].

End scenario.

(** * Properties *)

(** ** Comparison of binary64 values *)

Lemma SFcompare_swap (x y : spec_float) :
  SFcompare y x = option_map CompOpp (SFcompare x y).
Proof.
  destruct x as [sx|sx| |sx mx ex], y as [sy|sy| |sy my ey]; simpl;
    try destruct sx; try destruct sy; try reflexivity;
    rewrite (Z.compare_antisym ex ey);
    destruct (ex ?= ey)%Z; simpl; try reflexivity;
    pose proof (Pos.compare_cont_antisym mx my Eq) as H; simpl in H;
    rewrite H; reflexivity.
Qed.

Lemma leb_comparable (x y : float) :
  (x <=? y)%float = true -> SFcompare (Prim2SF x) (Prim2SF y) <> None.
Proof.
  rewrite FloatAxioms.leb_spec. unfold SFleb.
  destruct (SFcompare _ _); [discriminate | intros H _; discriminate H].
Qed.

Lemma comparable_not_nan_r (x y : spec_float) :
  SFcompare x y <> None -> y <> S754_nan.
Proof. intros H ->. apply H. now destruct x. Qed.

(** Above zero a probability is a number, and [>] answers as [<] does
    with the operands swapped. *)
Lemma r_gt_half (p : float) :
  (0 <=? p)%float = true -> r_gt p 0.5%float = Some (0.5 <? p)%float.
Proof.
  intros Hp. apply leb_comparable, comparable_not_nan_r in Hp.
  unfold r_gt. rewrite FloatAxioms.compare_spec, FloatAxioms.ltb_spec.
  unfold SFltb. rewrite (SFcompare_swap (Prim2SF 0.5%float) (Prim2SF p)).
  destruct (SFcompare (Prim2SF 0.5%float) (Prim2SF p)) as [[]|] eqn:E;
    try reflexivity.
  exfalso. destruct (Prim2SF p); try congruence; vm_compute in E; discriminate E.
Qed.

(** ** The prediction list *)

Lemma invariant_of_ifelse (p : float) :
  (0 <=? p)%float = true ->
  invariant p (Rlist p (ifelse (r_gt p 0.5%float) "approved" "denied")
                     (PrimFloat.abs (p - 0.5) * 2)%float).
Proof.
  intros Hp. unfold invariant. rewrite (r_gt_half p Hp).
  destruct (0.5 <? p)%float; simpl; repeat split; auto; try discriminate.
Qed.

(** C1, as the code has it. For an approved-class probability p with
    0 <= p <= 1 the list the worker routine builds (in each of the three
    scripts) carries p itself, the label "approved" exactly when p > 0.5 and
    "denied" otherwise, and the confidence abs(p - 0.5) * 2 as the binary64
    operations give it, with no rounding step. What the routine returns is
    that list printed by toJSON: the label as computed, the probability and
    the confidence as toJSON prints numbers; the returned document keeps the
    exact confidence when printing leaves that number unchanged. *)
Theorem worker_result_as_printed (number : float -> pyval) (p : float) :
  (0 <=? p)%float = true -> (p <=? 1)%float = true ->
  invariant p (flask_model_server.predict_loan p)
  /\ invariant p (seldon_model.r_script p)
  /\ invariant p (model_server.predict_loan p)
  /\ (forall output,
        In output [flask_model_server.script_output number p;
                   seldon_model.script_output number p;
                   model_server.script_output number p] ->
        output
        = JsonText
            (PDict [("probability", number p);
                    ("prediction", PStr (if (0.5 <? p)%float then "approved" else "denied"));
                    ("confidence", number (PrimFloat.abs (p - 0.5) * 2)%float)]))
  /\ (py_float (number (PrimFloat.abs (p - 0.5) * 2)%float)
      = Ok (PrimFloat.abs (p - 0.5) * 2)%float ->
      returned_invariant p
        (PDict [("probability", number p);
                ("prediction", PStr (if (0.5 <? p)%float then "approved" else "denied"));
                ("confidence", number (PrimFloat.abs (p - 0.5) * 2)%float)])).
Proof.
  intros Hlo _.
  split; [|split; [|split]]; try (apply invariant_of_ifelse; exact Hlo).
  split.
  - intros output Hin.
    assert (H : output = toJSON number (flask_model_server.predict_loan p))
      by (destruct Hin as [<-|[<-|[<-|[]]]]; reflexivity).
    rewrite H. unfold toJSON, flask_model_server.predict_loan.
    rewrite (r_gt_half p Hlo). now destruct (0.5 <? p)%float.
  - intros Hc. split.
    + cbn [field dict_get String.eqb Ascii.eqb Bool.eqb].
      destruct (0.5 <? p)%float; split; intros H; (reflexivity || discriminate H).
    + exists (number (PrimFloat.abs (p - 0.5) * 2)%float). split; [reflexivity | exact Hc].
Qed.

Lemma worker_result_as_printed_witness :
  invariant 0.75%float (flask_model_server.predict_loan 0.75%float)
  /\ seldon_model.script_output scenario.digits4 0.75%float
     = JsonText (PDict [("probability", PFloat 0.75); ("prediction", PStr "approved");
                        ("confidence", PFloat 0.5)])
  /\ returned_invariant 0.75%float
       (PDict [("probability", PFloat 0.75); ("prediction", PStr "approved");
               ("confidence", PFloat 0.5)]).
Proof.
  destruct (worker_result_as_printed scenario.digits4 0.75%float eq_refl eq_refl)
    as [Hlist [_ [_ [Hout Hdoc]]]].
  split; [exact Hlist|]. split.
  - apply (Hout (seldon_model.script_output scenario.digits4 0.75%float)).
    simpl. tauto.
  - apply Hdoc. reflexivity.
Defined.

(** C1, as stated, fails on what the worker returns. At
    p = 0.500030517578125 the list holds the confidence 0.00006103515625;
    toJSON at its four decimal digits prints the probability as 0.5 and the
    confidence as 0.0001, with the label approved. The returned confidence
    is not abs(p - 0.5) * 2, and against the returned probability 0.5 the
    label approved and the confidence are both wrong. *)
Lemma printed_confidence_is_rounded :
  (0 <=? 0.500030517578125)%float = true
  /\ (0.500030517578125 <=? 1)%float = true
  /\ seldon_model.r_script 0.500030517578125%float
     = Rlist 0.500030517578125%float (Some "approved") 0.00006103515625%float
  /\ seldon_model.script_output scenario.digits4 0.500030517578125%float
     = JsonText (PDict [("probability", PFloat 0.5); ("prediction", PStr "approved");
                        ("confidence", PFloat (1 / 10000))])
  /\ flask_model_server.script_output scenario.digits4 0.500030517578125%float
     = seldon_model.script_output scenario.digits4 0.500030517578125%float
  /\ ~ returned_invariant 0.500030517578125%float
        (PDict [("probability", PFloat 0.5); ("prediction", PStr "approved");
                ("confidence", PFloat (1 / 10000))])
  /\ ~ returned_invariant 0.5%float
        (PDict [("probability", PFloat 0.5); ("prediction", PStr "approved");
                ("confidence", PFloat (1 / 10000))]).
Proof.
  repeat split.
  - intros [_ [c [Hc Hf]]]. injection Hc as <-.
    apply (f_equal (fun r => match r with
                             | Ok x => PrimFloat.eqb x (1 / 10000)
                             | Raise _ => false
                             end)) in Hf.
    vm_compute in Hf. discriminate Hf.
  - intros [[Hl _] _]. specialize (Hl eq_refl). vm_compute in Hl. discriminate Hl.
Qed.

(** ** Request shapes *)

Lemma dict_has_get (kvs : list (string * pyval)) (k : string) :
  dict_has kvs k = match dict_get kvs k with Some _ => true | None => false end.
Proof. reflexivity. Qed.

Lemma getitem_of_get (kvs : list (string * pyval)) (k : string) (v : pyval) :
  dict_get kvs k = Some v -> py_getitem (PDict kvs) k = Ok v.
Proof. intros H. simpl. now rewrite H. Qed.

(** C2, as the code has it. For every request body that is a JSON object the
    record is resolved in the order of the specification: the first element
    of the instances field when there is one; otherwise, when there is a
    data field, its ndarray's first row zipped with the five names if data
    contains ndarray and data itself if not; otherwise the whole body. *)
Theorem resolve_instance_object (kvs : list (string * pyval)) :
  flask_model_server.resolve_instance (PDict kvs) = spec_resolve (PDict kvs).
Proof.
  unfold flask_model_server.resolve_instance, spec_resolve, field.
  cbn [py_contains bind]. rewrite !dict_has_get.
  destruct (dict_get kvs "instances") as [instances|] eqn:Hi.
  - now rewrite (getitem_of_get _ _ _ Hi).
  - destruct (dict_get kvs "data") as [data|] eqn:Hd; [|reflexivity].
    rewrite (getitem_of_get _ _ _ Hd). cbn [bind].
    destruct (py_contains data "ndarray") as [[]|]; reflexivity.
Qed.

(** C2, as stated, fails on a body that is no object: the JSON array
    ["instances"] has no field, so the whole body would be the record, but
    the membership test of the code finds the string in the list and the
    subscript that follows raises; the request is answered with status 500. *)
Lemma resolve_instance_array_body :
  field (PList [PStr "instances"]) "instances" = None
  /\ field (PList [PStr "instances"]) "data" = None
  /\ spec_resolve (PList [PStr "instances"]) = Ok (PList [PStr "instances"])
  /\ flask_model_server.resolve_instance (PList [PStr "instances"]) = Raise TypeError
  /\ flask_model_server.resolve_instance (PList [PStr "instances"])
     <> spec_resolve (PList [PStr "instances"]).
Proof.
  repeat split; try reflexivity. discriminate.
Qed.

(** ** Validation of the record *)

Lemma missing_feature_dict (names : list string) (record : list (string * pyval)) :
  flask_model_server.missing_feature names (PDict record)
  = Ok (List.find (absent record) names).
Proof.
  induction names as [|feature rest IH]; [reflexivity|].
  cbn [flask_model_server.missing_feature py_contains bind List.find].
  unfold absent at 1. destruct (dict_has record feature); [exact IH | reflexivity].
Qed.

Lemma require_features_dict (names : list string) (record : list (string * pyval)) :
  model_server.require_features names (PDict record)
  = match List.find (absent record) names with
    | Some feature => Raise (ValueError ("Missing required feature: " ++ feature))
    | None => Ok tt
    end.
Proof.
  induction names as [|feature rest IH]; [reflexivity|].
  cbn [model_server.require_features py_contains bind List.find].
  unfold absent at 1. destruct (dict_has record feature); [exact IH | reflexivity].
Qed.

Lemma first_absent (names : list string) (record : list (string * pyval)) :
  (exists feature, In feature names /\ dict_get record feature = None) ->
  exists feature, List.find (absent record) names = Some feature
                  /\ In feature names /\ dict_get record feature = None.
Proof.
  intros [g [Hin Hg]].
  destruct (List.find (absent record) names) as [feature|] eqn:Hfind.
  - exists feature. apply find_some in Hfind as [Hin' Habs].
    repeat split; auto.
    unfold absent, dict_has in Habs. now destruct (dict_get record feature).
  - apply (find_none _ _ Hfind) in Hin.
    unfold absent, dict_has in Hin. rewrite Hg in Hin. discriminate.
Qed.

(** C3, as the code has it. When the record resolved from a request is a
    JSON object that lacks at least one of the five required fields, the
    REST server answers with status 400 and the message
    "Missing required feature: f", and the model server answers with its
    error dictionary carrying the same message, where f is a required field
    the record lacks; the worker is not consulted (the answer is the same in
    every environment) and no file is created. *)
Theorem missing_field_is_rejected
    (env : environment) (data : pyval) (record : list (string * pyval))
    (self : model_server.RModelServer) (fs : gset string) :
  py_truthy data = Ok true ->
  flask_model_server.resolve_instance data = Ok (PDict record) ->
  (exists feature, In feature flask_model_server.feature_names
                   /\ dict_get record feature = None) ->
  exists feature,
    In feature flask_model_server.feature_names
    /\ dict_get record feature = None
    /\ flask_model_server.predict env (Ok data)
       = (flask_model_server.ErrorBody (Text ("Missing required feature: " ++ feature)), 400)
    /\ snd (model_server.predict env self fs (PDict record))
       = model_server.Error [0.0%float] "error" 0.0%float
                            (Text ("Missing required feature: " ++ feature))
    /\ snd (fst (model_server.predict env self fs (PDict record))) = fs.
Proof.
  intros Htruthy Hresolve Hlacks.
  destruct (first_absent _ _ Hlacks) as [feature [Hfind [Hin Hget]]].
  exists feature. repeat split; auto.
  - unfold flask_model_server.predict. cbn [bind].
    rewrite Htruthy. cbn [bind negb]. rewrite Hresolve. cbn [bind].
    rewrite missing_feature_dict, Hfind. reflexivity.
  - unfold model_server.predict, model_server.input_dict. cbn [bind].
    rewrite require_features_dict.
    change model_server.feature_names with flask_model_server.feature_names.
    rewrite Hfind. reflexivity.
  - unfold model_server.predict, model_server.input_dict. cbn [bind].
    rewrite require_features_dict.
    change model_server.feature_names with flask_model_server.feature_names.
    rewrite Hfind. reflexivity.
Qed.

Lemma missing_field_is_rejected_witness :
  exists feature,
    In feature flask_model_server.feature_names
    /\ dict_get scenario.record_without_credit_score feature = None
    /\ flask_model_server.predict (scenario.answers scenario.approved_text)
         (Ok (PDict [("instances", PList [PDict scenario.record_without_credit_score])]))
       = (flask_model_server.ErrorBody (Text ("Missing required feature: " ++ feature)), 400)
    /\ snd (model_server.predict (scenario.answers scenario.approved_text)
              model_server.init ∅ (PDict scenario.record_without_credit_score))
       = model_server.Error [0.0%float] "error" 0.0%float
                            (Text ("Missing required feature: " ++ feature))
    /\ snd (fst (model_server.predict (scenario.answers scenario.approved_text)
                   model_server.init ∅ (PDict scenario.record_without_credit_score))) = ∅.
Proof.
  apply (missing_field_is_rejected (scenario.answers scenario.approved_text)
           (PDict [("instances", PList [PDict scenario.record_without_credit_score])])
           scenario.record_without_credit_score model_server.init ∅).
  - reflexivity.
  - reflexivity.
  - exists "credit_score". split; [simpl; tauto | reflexivity].
Defined.

(** C3, as stated, fails on a resolved record that is no object. The
    first element of instances is the list of the five names: it has none of
    the five fields, yet Python's membership test finds each name among its
    items, the validation passes and the worker is run, so the answer is
    whatever the invocation gives (504 after a timeout, 500 after a non-zero
    exit) and never the 400 that names a missing field. *)
Lemma list_record_passes_validation :
  flask_model_server.resolve_instance (PDict [("instances", PList [scenario.list_of_names])])
  = Ok scenario.list_of_names
  /\ field scenario.list_of_names "age" = None
  /\ field scenario.list_of_names "credit_score" = None
  /\ flask_model_server.missing_feature flask_model_server.feature_names
       scenario.list_of_names = Ok None
  /\ flask_command (PDict [("instances", PList [scenario.list_of_names])])
     = Some (Rscript flask_script [] (Some (JsonText scenario.list_of_names)) 30)
  /\ flask_model_server.predict scenario.times_out
       (Ok (PDict [("instances", PList [scenario.list_of_names])]))
     = (flask_model_server.ErrorBody (Text "Prediction timeout"), 504)
  /\ flask_model_server.predict (scenario.exits 1 "$ operator is invalid for atomic vectors")
       (Ok (PDict [("instances", PList [scenario.list_of_names])]))
     = (flask_model_server.ErrorBody
          (Text "R prediction failed: $ operator is invalid for atomic vectors"), 500).
Proof. repeat split. Qed.

(** ** From a request to the invocation *)

Section invocation.

Variable env : environment.

Lemma flask_predict_invokes (data : pyval) (cmd : command) :
  flask_command data = Some cmd ->
  exists instance text,
    cmd = Rscript flask_script [] (Some text) 30
    /\ json_dumps instance = Ok text
    /\ flask_model_server.predict env (Ok data)
       = flask_model_server.try_prediction env instance.
Proof.
  unfold flask_command, flask_model_server.predict. cbn [bind].
  destruct (py_truthy data) as [[]|]; try discriminate. cbn [bind negb].
  destruct (flask_model_server.resolve_instance data) as [instance|]; try discriminate.
  cbn [bind].
  destruct (flask_model_server.missing_feature _ instance) as [[]|]; try discriminate.
  destruct (json_dumps instance) as [text|] eqn:Hd; try discriminate.
  intros [= <-]. exists instance, text. auto.
Qed.

Lemma flask_try_timeout (instance : pyval) (text : json_text) :
  json_dumps instance = Ok text ->
  invoke env (Rscript flask_script [] (Some text) 30) = Timeout ->
  flask_model_server.try_prediction env instance
  = (flask_model_server.ErrorBody (Text "Prediction timeout"), 504).
Proof.
  intros Hd. unfold invoke, flask_model_server.try_prediction,
    flask_model_server.run_prediction. rewrite Hd. cbn [bind].
  destruct (subprocess_run env _) as [process|e]; cbn [bind].
  - destruct (returncode process =? 0); [|discriminate].
    destruct (json_loads env _); discriminate.
  - destruct e; try discriminate. reflexivity.
Qed.

Lemma flask_try_worker_error (instance : pyval) (text : json_text)
    (err : string) :
  json_dumps instance = Ok text ->
  invoke env (Rscript flask_script [] (Some text) 30) = WorkerError err ->
  flask_model_server.try_prediction env instance
  = (flask_model_server.ErrorBody (Text ("R prediction failed: " ++ err)), 500).
Proof.
  intros Hd. unfold invoke, flask_model_server.try_prediction,
    flask_model_server.run_prediction. rewrite Hd. cbn [bind].
  destruct (subprocess_run env _) as [process|e]; cbn [bind].
  - destruct (returncode process =? 0); cbn [negb].
    + destruct (json_loads env _); discriminate.
    + intros [= <-]. reflexivity.
  - destruct e; discriminate.
Qed.

Lemma flask_try_failure (instance : pyval) (text : json_text) :
  json_dumps instance = Ok text ->
  is_failure (invoke env (Rscript flask_script [] (Some text) 30)) = true ->
  exists msg status,
    flask_model_server.try_prediction env instance = (flask_model_server.ErrorBody msg, status)
    /\ (status = 500 \/ status = 504).
Proof.
  intros Hd. unfold invoke, flask_model_server.try_prediction,
    flask_model_server.run_prediction. rewrite Hd. cbn [bind].
  destruct (subprocess_run env _) as [process|e]; cbn [bind].
  - destruct (returncode process =? 0); cbn [negb].
    + destruct (json_loads env _); [discriminate|]. eauto.
    + eauto.
  - destruct e; eauto.
Qed.

Lemma getitem_field (doc : pyval) (key : string) :
  match field doc key with
  | Some v => py_getitem doc key = Ok v
  | None => exists e, py_getitem doc key = Raise e
  end.
Proof.
  destruct doc; simpl; eauto.
  destruct (dict_get kvs key); eauto.
Qed.

Lemma format_of_float (v : pyval) (p : float) :
  py_float v = Ok p -> py_format_f v = Ok tt.
Proof.
  intros H. destruct v; try discriminate H; unfold py_format_f; now rewrite H.
Qed.

(** The model class: what [predict] returns, by the outcome of the
    invocation. *)
Lemma seldon_predict_by_outcome (X : pyval) :
  seldon_model.predict env X
  = match seldon_command X with
    | Some cmd =>
        match worker_probability (invoke env cmd) with
        | Some p => seldon_model.np_array (1.0 - p) p
        | None => seldon_model.np_array 0.5 0.5
        end
    | None => seldon_model.np_array 0.5 0.5
    end.
Proof.
  unfold seldon_model.predict, seldon_command. cbn [bind].
  destruct (seldon_model.input_dict X) as [input_data|]; [|reflexivity].
  cbn [bind]. unfold seldon_model.run_prediction.
  destruct (json_dumps input_data) as [text|e]; cbn [bind].
  2:{ destruct e; reflexivity. }
  unfold invoke.
  destruct (subprocess_run env _) as [process|e]; cbn [bind].
  2:{ destruct e; reflexivity. }
  destruct (returncode process =? 0); [|reflexivity]. cbn [negb].
  destruct (json_loads env _) as [doc|]; [|reflexivity].
  unfold worker_probability.
  pose proof (getitem_field doc "probability") as Hp.
  pose proof (getitem_field doc "prediction") as Hl.
  destruct (field doc "probability") as [v|].
  2:{ destruct Hp as [e ->]. cbn [bind]. destruct e; reflexivity. }
  rewrite Hp. cbn [bind].
  destruct (py_float v) as [p|e] eqn:Hf.
  2:{ cbn [bind]. destruct (field doc "prediction"); destruct e; reflexivity. }
  cbn [bind].
  destruct (field doc "prediction") as [l|].
  2:{ destruct Hl as [e ->]. cbn [bind]. destruct e; reflexivity. }
  rewrite Hl. cbn [bind]. rewrite (format_of_float v p Hf). cbn [bind].
  reflexivity.
Qed.

Lemma seldon_predict_failure (X : pyval) (cmd : command) :
  seldon_command X = Some cmd ->
  is_failure (invoke env cmd) = true ->
  seldon_model.predict env X = seldon_model.np_array 0.5 0.5.
Proof.
  intros Hc Hf. rewrite seldon_predict_by_outcome, Hc.
  destruct (invoke env cmd); try reflexivity. discriminate Hf.
Qed.

Lemma model_server_predict_worker_error
    (self : model_server.RModelServer) (fs : gset string)
    (X : pyval) (cmd : command) (err : string) :
  model_server_command X = Some cmd ->
  invoke env cmd = WorkerError err ->
  snd (model_server.predict env self fs X)
  = model_server.Error [0.0%float] "error" 0.0%float
                       (Text ("R prediction failed: " ++ err)).
Proof.
  unfold model_server_command, model_server.predict.
  destruct (model_server.input_dict X) as [input_data|]; [|discriminate].
  destruct (json_dumps input_data) as [text|] eqn:Hd; [|discriminate].
  intros [= <-]. unfold invoke, model_server.run_prediction. rewrite Hd. cbn [bind].
  destruct (subprocess_run env _) as [process|e].
  - cbn [bind]. destruct (returncode process =? 0); cbn [negb].
    + destruct (json_loads env _); discriminate.
    + intros [= <-]. reflexivity.
  - destruct e; discriminate.
Qed.

(** ** Status 504 is the timeout's alone *)

Lemma getitem_no_timeout (v : pyval) (key : string) :
  py_getitem v key <> Raise TimeoutExpired.
Proof. destruct v; simpl; try discriminate. destruct (dict_get kvs key); discriminate. Qed.

Lemma float_no_timeout (v : pyval) : py_float v <> Raise TimeoutExpired.
Proof.
  destruct v; simpl; try discriminate.
  unfold float_of_Z. destruct (is_infinity _); discriminate.
Qed.

Lemma format_no_timeout (v : pyval) : py_format_f v <> Raise TimeoutExpired.
Proof.
  unfold py_format_f. destruct v; try discriminate;
    match goal with
    | |- context [py_float ?x] =>
        pose proof (float_no_timeout x) as H; destruct (py_float x) as [|[]];
        try discriminate; now elim H
    end.
Qed.

Lemma dumps_no_timeout (v : pyval) : json_dumps v <> Raise TimeoutExpired.
Proof. unfold json_dumps. destruct (json_serializable v); discriminate. Qed.

Lemma flask_try_504 (instance : pyval) :
  snd (flask_model_server.try_prediction env instance) = 504 ->
  exists text, json_dumps instance = Ok text
               /\ invoke env (Rscript flask_script [] (Some text) 30) = Timeout.
Proof.
  unfold flask_model_server.try_prediction, flask_model_server.run_prediction, invoke.
  pose proof (dumps_no_timeout instance) as Hd.
  destruct (json_dumps instance) as [text|e]; cbn [bind].
  2:{ destruct e; try discriminate. now elim Hd. }
  intros H. exists text. split; [reflexivity|].
  destruct (subprocess_run env _) as [process|e]; cbn [bind] in H.
  2:{ destruct e; try discriminate H. reflexivity. }
  exfalso. destruct (returncode process =? 0); cbn [negb] in H; [|discriminate H].
  destruct (json_loads env _) as [doc|]; [|discriminate H].
  pose proof (getitem_no_timeout doc "probability") as H1.
  destruct (py_getitem doc "probability") as [a|e]; cbn [bind] in H.
  2:{ destruct e; try discriminate H. now elim H1. }
  pose proof (getitem_no_timeout doc "prediction") as H2.
  destruct (py_getitem doc "prediction") as [b|e]; cbn [bind] in H.
  2:{ destruct e; try discriminate H. now elim H2. }
  pose proof (getitem_no_timeout doc "confidence") as H3.
  destruct (py_getitem doc "confidence") as [c|e]; cbn [bind] in H.
  2:{ destruct e; try discriminate H. now elim H3. }
  pose proof (format_no_timeout c) as H4.
  destruct (py_format_f c) as [u|e]; cbn [bind] in H.
  - discriminate H.
  - destruct e; try discriminate H. now elim H4.
Qed.

Lemma flask_predict_504 (get_json : result pyval) :
  snd (flask_model_server.predict env get_json) = 504 ->
  exists data cmd, get_json = Ok data
                   /\ flask_command data = Some cmd
                   /\ invoke env cmd = Timeout.
Proof.
  unfold flask_model_server.predict.
  destruct get_json as [data|e]; cbn [bind]; [|discriminate].
  destruct (py_truthy data) as [[]|] eqn:Ht; cbn [bind negb]; try discriminate.
  destruct (flask_model_server.resolve_instance data) as [instance|] eqn:Hr;
    cbn [bind]; try discriminate.
  destruct (flask_model_server.missing_feature _ instance) as [[]|] eqn:Hm;
    cbn [bind]; try discriminate.
  intros H. apply flask_try_504 in H as [text [Hd Htime]].
  exists data, (Rscript flask_script [] (Some text) 30).
  unfold flask_command. rewrite Ht, Hr, Hm, Hd. auto.
Qed.

End invocation.

(** ** Invocation failures *)

(** C4, as the code has it. When the invocation a request leads to fails
    (timeout, non-zero exit, output that does not parse, or the launch
    itself raising), the REST server answers with a structured error body
    and status 500 or 504, never with a prediction; the model class answers
    with the array [[0.5, 0.5]]. Both are total: no exception leaves
    predict. *)
Theorem invocation_failure_answers
    (env : environment) (data : pyval) (cmd : command) (X : pyval) (cmd' : command) :
  flask_command data = Some cmd ->
  seldon_command X = Some cmd' ->
  (is_failure (invoke env cmd) = true ->
   exists msg status,
     flask_model_server.predict env (Ok data) = (flask_model_server.ErrorBody msg, status)
     /\ (status = 500 \/ status = 504))
  /\ (is_failure (invoke env cmd') = true ->
      seldon_model.predict env X = seldon_model.np_array 0.5 0.5).
Proof.
  intros Hc Hc'. split.
  - intros Hf. destruct (flask_predict_invokes env data cmd Hc)
      as [instance [text [-> [Hd ->]]]].
    exact (flask_try_failure env instance text Hd Hf).
  - intros Hf. exact (seldon_predict_failure env X cmd' Hc' Hf).
Qed.

Lemma invocation_failure_answers_witness :
  (exists msg status,
     flask_model_server.predict scenario.times_out (Ok scenario.record)
     = (flask_model_server.ErrorBody msg, status)
     /\ (status = 500 \/ status = 504))
  /\ seldon_model.predict scenario.times_out scenario.array
     = seldon_model.np_array 0.5 0.5.
Proof.
  destruct (invocation_failure_answers scenario.times_out scenario.record
              scenario.flask_cmd scenario.array scenario.seldon_cmd
              eq_refl eq_refl) as [Hflask Hseldon].
  split; [apply Hflask | apply Hseldon]; reflexivity.
Defined.

(** C4, as stated, fails in the model class: a worker that exits with
    status 1 is answered with the very array a worker that reports the
    probability 0.5 is answered with, a normal-looking prediction. *)
Lemma seldon_failure_looks_like_prediction :
  seldon_command scenario.array = Some scenario.seldon_cmd
  /\ is_failure (invoke (scenario.exits 1 "cannot open the connection") scenario.seldon_cmd) = true
  /\ worker_probability (invoke (scenario.answers scenario.half_text) scenario.seldon_cmd)
     = Some 0.5%float
  /\ seldon_model.predict (scenario.exits 1 "cannot open the connection") scenario.array
     = seldon_model.predict (scenario.answers scenario.half_text) scenario.array.
Proof. repeat split. Qed.

(** C5, as the code has it. Every command carries the deadline of 30
    seconds. When [subprocess.run] raises [TimeoutExpired] for it, the REST
    server answers with status 504 and "Prediction timeout", a status no
    other request gets; the model class answers with [[0.5, 0.5]]. *)
Theorem timeout_answers
    (env : environment) (data : pyval) (cmd : command) (X : pyval) (cmd' : command) :
  flask_command data = Some cmd ->
  seldon_command X = Some cmd' ->
  timeout cmd = 30 /\ timeout cmd' = 30
  /\ (invoke env cmd = Timeout ->
      flask_model_server.predict env (Ok data)
      = (flask_model_server.ErrorBody (Text "Prediction timeout"), 504))
  /\ (forall get_json,
        snd (flask_model_server.predict env get_json) = 504 ->
        exists data0 cmd0, get_json = Ok data0
                           /\ flask_command data0 = Some cmd0
                           /\ invoke env cmd0 = Timeout)
  /\ (invoke env cmd' = Timeout ->
      seldon_model.predict env X = seldon_model.np_array 0.5 0.5).
Proof.
  intros Hc Hc'.
  destruct (flask_predict_invokes env data cmd Hc) as [instance [text [-> [Hd ->]]]].
  repeat split.
  - unfold seldon_command in Hc'.
    destruct (seldon_model.input_dict X) as [input_data|]; [|discriminate].
    destruct (json_dumps input_data); [|discriminate]. now injection Hc' as <-.
  - exact (flask_try_timeout env instance text Hd).
  - exact (flask_predict_504 env).
  - intros Ht. apply (seldon_predict_failure env X cmd' Hc'). now rewrite Ht.
Qed.

Lemma timeout_answers_witness :
  flask_model_server.predict scenario.times_out (Ok scenario.record)
  = (flask_model_server.ErrorBody (Text "Prediction timeout"), 504)
  /\ seldon_model.predict scenario.times_out scenario.array
     = seldon_model.np_array 0.5 0.5.
Proof.
  destruct (timeout_answers scenario.times_out scenario.record scenario.flask_cmd
              scenario.array scenario.seldon_cmd eq_refl eq_refl)
    as [_ [_ [Hflask [_ Hseldon]]]].
  split; [apply Hflask | apply Hseldon]; reflexivity.
Defined.

(** C5, as stated, fails in the model class: the answer to a timeout is
    the answer to a worker that exits with status 1, not a distinct one. *)
Lemma seldon_timeout_not_distinct :
  seldon_command scenario.array = Some scenario.seldon_cmd
  /\ invoke scenario.times_out scenario.seldon_cmd = Timeout
  /\ invoke (scenario.exits 1 "cannot open the connection") scenario.seldon_cmd
     = WorkerError "cannot open the connection"
  /\ seldon_model.predict scenario.times_out scenario.array
     = seldon_model.predict (scenario.exits 1 "cannot open the connection") scenario.array.
Proof. repeat split. Qed.

(** C6, as the code has it. When the worker exits with a non-zero status
    and [err] on its standard error, the REST server answers with status 500
    and "R prediction failed: err", the model server with its error
    dictionary and the same message; the model class answers with
    [[0.5, 0.5]]. *)
Theorem worker_error_answers
    (env : environment) (err : string)
    (data : pyval) (cmd : command)
    (self : model_server.RModelServer) (fs : gset string) (X2 : pyval) (cmd2 : command)
    (X : pyval) (cmd' : command) :
  flask_command data = Some cmd ->
  model_server_command X2 = Some cmd2 ->
  seldon_command X = Some cmd' ->
  (invoke env cmd = WorkerError err ->
   flask_model_server.predict env (Ok data)
   = (flask_model_server.ErrorBody (Text ("R prediction failed: " ++ err)), 500))
  /\ (invoke env cmd2 = WorkerError err ->
      snd (model_server.predict env self fs X2)
      = model_server.Error [0.0%float] "error" 0.0%float
                           (Text ("R prediction failed: " ++ err)))
  /\ (invoke env cmd' = WorkerError err ->
      seldon_model.predict env X = seldon_model.np_array 0.5 0.5).
Proof.
  intros Hc Hc2 Hc'. repeat split.
  - destruct (flask_predict_invokes env data cmd Hc) as [instance [text [-> [Hd ->]]]].
    exact (flask_try_worker_error env instance text err Hd).
  - exact (model_server_predict_worker_error env self fs X2 cmd2 err Hc2).
  - intros Hw. apply (seldon_predict_failure env X cmd' Hc'). now rewrite Hw.
Qed.

Lemma worker_error_answers_witness :
  flask_model_server.predict (scenario.exits 1 "cannot open the connection")
    (Ok scenario.record)
  = (flask_model_server.ErrorBody
       (Text ("R prediction failed: " ++ "cannot open the connection")), 500)
  /\ snd (model_server.predict (scenario.exits 1 "cannot open the connection")
            model_server.init ∅ scenario.record)
     = model_server.Error [0.0%float] "error" 0.0%float
         (Text ("R prediction failed: " ++ "cannot open the connection"))
  /\ seldon_model.predict (scenario.exits 1 "cannot open the connection") scenario.array
     = seldon_model.np_array 0.5 0.5.
Proof.
  destruct (worker_error_answers (scenario.exits 1 "cannot open the connection")
              "cannot open the connection"
              scenario.record scenario.flask_cmd
              model_server.init ∅ scenario.record scenario.model_server_cmd
              scenario.array scenario.seldon_cmd
              eq_refl eq_refl eq_refl) as [Hflask [Hms Hseldon]].
  split; [|split]; [apply Hflask | apply Hms | apply Hseldon]; reflexivity.
Defined.

(** C6, as stated, fails in the model class: two workers that exit with
    status 1 and different diagnostics get the same answer, which carries
    neither. *)
Lemma seldon_worker_error_drops_stderr :
  seldon_command scenario.array = Some scenario.seldon_cmd
  /\ invoke (scenario.exits 1 "cannot open the connection") scenario.seldon_cmd
     = WorkerError "cannot open the connection"
  /\ invoke (scenario.exits 1 "there is no package called randomForest") scenario.seldon_cmd
     = WorkerError "there is no package called randomForest"
  /\ seldon_model.predict (scenario.exits 1 "cannot open the connection") scenario.array
     = seldon_model.np_array 0.5 0.5
  /\ seldon_model.predict (scenario.exits 1 "there is no package called randomForest")
       scenario.array
     = seldon_model.np_array 0.5 0.5.
Proof. repeat split. Qed.

(** ** Readiness *)

(** C7, as the code has it. The health query of the REST server and the
    one of the model class look the artifact up at query time: they report
    healthy exactly when the file exists, whatever the readiness flag, so the
    query after a deletion reports unhealthy and the query after a
    restoration reports healthy. The health query of the model server
    reports its flag, which the first predict sets, and no file. *)
Theorem health_reports
    (flag : bool) (fs : gset string)
    (env : environment) (self : model_server.RModelServer) (X : pyval) :
  (flask_model_server.health flag fs = (flask_model_server.Healthy true "1.0.0", 200)
   <-> flask_model_server.model_file ∈ fs)
  /\ (flask_model_server.health flag fs
      = (flask_model_server.Unhealthy "Model file not found" false, 503)
      <-> flask_model_server.model_file ∉ fs)
  /\ flask_model_server.health flag (fs ∖ {[flask_model_server.model_file]})
     = (flask_model_server.Unhealthy "Model file not found" false, 503)
  /\ flask_model_server.health flag
       ({[flask_model_server.model_file]} ∪ (fs ∖ {[flask_model_server.model_file]}))
     = (flask_model_server.Healthy true "1.0.0", 200)
  /\ (seldon_model.health_status fs = ("healthy", true) <-> seldon_model.model_file ∈ fs)
  /\ (seldon_model.health_status fs = ("unhealthy", false) <-> seldon_model.model_file ∉ fs)
  /\ seldon_model.health_status (fs ∖ {[seldon_model.model_file]}) = ("unhealthy", false)
  /\ seldon_model.health_status
       ({[seldon_model.model_file]} ∪ (fs ∖ {[seldon_model.model_file]}))
     = ("healthy", true)
  /\ model_server.health_status self
     = (if model_server.model_ready self then "healthy" else "loading",
        model_server.model_ready self, "1.0.0")
  /\ model_server.health_status (fst (fst (model_server.predict env self fs X)))
     = ("healthy", true, "1.0.0").
Proof.
  unfold flask_model_server.health, seldon_model.health_status.
  repeat split; try (intros H; case_bool_decide; simpl in *; (discriminate || assumption)).
  - intros H. rewrite bool_decide_eq_true_2; auto.
  - intros H. rewrite bool_decide_eq_false_2; auto.
  - rewrite bool_decide_eq_false_2; [reflexivity | set_solver].
  - rewrite bool_decide_eq_true_2; [reflexivity | set_solver].
  - intros H. rewrite bool_decide_eq_true_2; auto.
  - intros H. rewrite bool_decide_eq_false_2; auto.
  - rewrite bool_decide_eq_false_2; [reflexivity | set_solver].
  - rewrite bool_decide_eq_true_2; [reflexivity | set_solver].
  - unfold model_server.predict.
    assert (Hready : model_server.model_ready
              (if negb (model_server.model_ready self)
               then model_server.load self else self) = true)
      by (destruct self as [[] ?]; reflexivity).
    destruct (model_server.input_dict X) as [input_data|];
      [destruct (json_dumps input_data);
       [destruct (model_server.run_prediction env input_data)|]|];
      cbn [fst]; unfold model_server.health_status; rewrite Hready; reflexivity.
Qed.

Lemma model_server_predict_files_kept
    (env : environment) (self : model_server.RModelServer) (fs : gset string)
    (X input_data : pyval) (text : json_text) :
  model_server.input_dict X = Ok input_data ->
  json_dumps input_data = Ok text ->
  tmp_name env ∉ fs ->
  snd (fst (model_server.predict env self fs X)) = fs.
Proof.
  intros Hi Hd Hfresh. unfold model_server.predict. rewrite Hi, Hd.
  rewrite bool_decide_eq_true_2 by set_solver.
  destruct (model_server.run_prediction env input_data); cbn [fst snd]; set_solver.
Qed.

Lemma model_server_predict_dump_fails
    (env : environment) (self : model_server.RModelServer) (fs : gset string)
    (X input_data : pyval) (e : exn) :
  model_server.input_dict X = Ok input_data ->
  json_dumps input_data = Raise e ->
  model_server.predict env self fs X
  = (if negb (model_server.model_ready self) then model_server.load self else self,
     {[tmp_name env]} ∪ fs,
     model_server.error_response e).
Proof.
  intros Hi Hd. unfold model_server.predict. now rewrite Hi, Hd.
Qed.

(** C7, as stated, fails in the model server. With no artifact on disk a
    prediction fails because the worker cannot read the model; the health
    query that follows reports healthy. Before any prediction the query
    reports loading, also with the artifact on disk. *)
Lemma model_server_health_ignores_artifact :
  (model_server.model_file ∉ snd (fst (model_server.predict
      (scenario.exits 1 "cannot open the connection") model_server.init ∅ scenario.record)))
  /\ snd (model_server.predict
      (scenario.exits 1 "cannot open the connection") model_server.init ∅ scenario.record)
     = model_server.Error [0.0%float] "error" 0.0%float
         (Text "R prediction failed: cannot open the connection")
  /\ model_server.health_status (fst (fst (model_server.predict
      (scenario.exits 1 "cannot open the connection") model_server.init ∅ scenario.record)))
     = ("healthy", true, "1.0.0")
  /\ (model_server.model_file ∈ ({[model_server.model_file]} : gset string))
  /\ model_server.health_status model_server.init = ("loading", false, "1.0.0").
Proof.
  split; [|split; [|split; [|split]]].
  - rewrite (model_server_predict_files_kept _ _ _ _ scenario.record (JsonText scenario.record));
      [set_solver | reflexivity | reflexivity | set_solver].
  - reflexivity.
  - reflexivity.
  - set_solver.
  - reflexivity.
Qed.

(** ** Array-form input *)

Lemma flask_resolve_ndarray (kvs d : list (string * pyval)) (row rows : list pyval) :
  dict_get kvs "instances" = None ->
  dict_get kvs "data" = Some (PDict d) ->
  dict_get d "ndarray" = Some (PList (PList row :: rows)) ->
  flask_model_server.resolve_instance (PDict kvs)
  = Ok (PDict (combine flask_model_server.feature_names row)).
Proof.
  intros Hi Hd Hn. unfold flask_model_server.resolve_instance.
  cbn [py_contains bind]. rewrite !dict_has_get, Hi, Hd.
  rewrite (getitem_of_get _ _ _ Hd). cbn [py_contains bind].
  rewrite dict_has_get, Hn, (getitem_of_get _ _ _ Hn). reflexivity.
Qed.

Lemma dict_nonempty (kvs : list (string * pyval)) (k : string) (v : pyval) :
  dict_get kvs k = Some v -> py_truthy (PDict kvs) = Ok true.
Proof. destruct kvs; [discriminate | reflexivity]. Qed.

Lemma chunk_length (n k : nat) (l : list pyval) : length (chunk n k l) = n.
Proof. revert l. induction n as [|n IH]; intros l; simpl; auto. Qed.

Lemma chunk_firstn (m n k : nat) (l : list pyval) :
  (m <= n)%nat -> firstn m (chunk n k l) = chunk m k (firstn (m * k) l).
Proof.
  revert n l. induction m as [|m IH]; intros n l Hmn; [reflexivity|].
  destruct n as [|n]; [lia|].
  cbn [chunk firstn]. rewrite (IH n (skipn k l)) by lia. f_equal.
  - rewrite firstn_firstn. f_equal. simpl. lia.
  - f_equal. rewrite take_drop_commute. reflexivity.
Qed.

Lemma array_len_items (X : pyval) (items : list pyval) :
  array_form X = true -> array_well_formed X = true ->
  py_iter X = Ok items -> py_len X = Ok (length items).
Proof.
  destruct X; try discriminate; intros _ Hwf Hi.
  - now injection Hi as <-.
  - cbn [array_well_formed] in Hwf. apply Nat.eqb_eq in Hwf.
    destruct shape as [|n [|m sh]]; cbn [py_iter nd_rows py_len] in *; try discriminate.
    + injection Hi as <-. rewrite length_map, length_firstn.
      cbn [prod_shape fold_right] in Hwf. f_equal. lia.
    + injection Hi as <-. now rewrite length_map, chunk_length.
Qed.

Lemma array_head_items (X : pyval) (items : list pyval) :
  array_form X = true -> array_well_formed X = true ->
  py_iter X = Ok items -> (5 <= length items)%nat ->
  exists head, py_slice_to X 5 = Ok head /\ py_iter head = Ok (firstn 5 items).
Proof.
  intros Hf Hwf Hi H5. pose proof (array_len_items X items Hf Hwf Hi) as Hlen.
  destruct X; try discriminate.
  - injection Hi as <-. eexists. split; reflexivity.
  - destruct shape as [|n [|m sh]]; cbn [py_iter nd_rows py_len] in *; try discriminate.
    + injection Hlen as Hn. injection Hi as <-.
      eexists. split; [reflexivity|]. cbn [py_iter nd_rows]. f_equal.
      rewrite firstn_map. f_equal.
      rewrite !firstn_firstn. f_equal.
      cbn [prod_shape fold_right]. lia.
    + injection Hlen as Hn. injection Hi as <-.
      eexists. split; [reflexivity|]. cbn [py_iter nd_rows]. f_equal.
      rewrite firstn_map. f_equal.
      replace (Nat.min 5 n) with 5%nat by lia.
      symmetry. apply chunk_firstn. lia.
Qed.

Lemma model_server_input_dict_array (X : pyval) :
  array_form X = true ->
  model_server.input_dict X
  = let* input_data :=
      (let* n := py_len X in
       if (5 <=? n)%nat then
         let* head := py_slice_to X 5 in
         let* items := py_iter head in
         Ok (dict_zip model_server.feature_names items)
       else Raise (ValueError "Input array too short")) in
    let* _ := model_server.require_features model_server.feature_names input_data in
    Ok input_data.
Proof. destruct X; try discriminate; reflexivity. Qed.

Lemma flask_resolve_ndarray_row (kvs inner : list (string * pyval)) (nd row : pyval) :
  dict_get kvs "instances" = None ->
  dict_get kvs "data" = Some (PDict inner) ->
  dict_get inner "ndarray" = Some nd ->
  py_getitem0 nd = Ok row ->
  flask_model_server.resolve_instance (PDict kvs)
  = let* items := py_iter row in Ok (dict_zip flask_model_server.feature_names items).
Proof.
  intros Hi Hd Hn Hrow. unfold flask_model_server.resolve_instance.
  cbn [py_contains bind]. rewrite !dict_has_get, Hi, Hd.
  rewrite (getitem_of_get _ _ _ Hd). cbn [py_contains bind].
  rewrite dict_has_get, Hn, (getitem_of_get _ _ _ Hn). cbn [bind].
  now rewrite Hrow.
Qed.

(** C8, as the code has it. The model server reads a list or a numpy array
    along its first axis: with at least five items there, items 0 to 4
    become age, income, education, experience and credit_score, so
    [35, 75000, 16, 10, 750] becomes the record of the specification; with
    fewer it is refused with "Input array too short" and no file is made.
    The REST server takes the first element of data.ndarray as the row: the
    items of an iterable row are mapped in the same way, a row that ends
    before the fifth item is refused with status 400 and
    "Missing required feature: f", f being the name at the position where
    the row ends, and a row that cannot be iterated is answered 500. *)
Theorem array_input_by_position
    (env : environment) (self : model_server.RModelServer) (fs : gset string)
    (X : pyval) (items : list pyval)
    (kvs inner : list (string * pyval)) (nd row : pyval) :
  array_form X = true ->
  array_well_formed X = true ->
  py_iter X = Ok items ->
  dict_get kvs "instances" = None ->
  dict_get kvs "data" = Some (PDict inner) ->
  dict_get inner "ndarray" = Some nd ->
  py_getitem0 nd = Ok row ->
  (forall a b c d e rest, items = a :: b :: c :: d :: e :: rest ->
     model_server.input_dict X
     = Ok (PDict [("age", a); ("income", b); ("education", c);
                  ("experience", d); ("credit_score", e)]))
  /\ ((length items < 5)%nat ->
      snd (model_server.predict env self fs X)
      = model_server.Error [0.0%float] "error" 0.0%float (Text "Input array too short")
      /\ snd (fst (model_server.predict env self fs X)) = fs)
  /\ (forall row_items, py_iter row = Ok row_items ->
        (forall a b c d e rest, row_items = a :: b :: c :: d :: e :: rest ->
           flask_model_server.resolve_instance (PDict kvs)
           = Ok (PDict [("age", a); ("income", b); ("education", c);
                        ("experience", d); ("credit_score", e)]))
        /\ ((length row_items < 5)%nat ->
            flask_model_server.predict env (Ok (PDict kvs))
            = (flask_model_server.ErrorBody
                 (Text ("Missing required feature: "
                        ++ nth (length row_items) flask_model_server.feature_names "")), 400)))
  /\ (forall exc, py_iter row = Raise exc ->
        flask_model_server.predict env (Ok (PDict kvs))
        = (flask_model_server.ErrorBody (py_str_exn exc), 500))
  /\ model_server.input_dict (PList scenario.values) = Ok scenario.record.
Proof.
  intros Hf Hwf Hitems Hi Hd Hn Hrow.
  pose proof (array_len_items X items Hf Hwf Hitems) as Hlen.
  pose proof (flask_resolve_ndarray_row kvs inner nd row Hi Hd Hn Hrow) as Hres.
  split; [|split; [|split; [|split; [|reflexivity]]]].
  - intros a b c d e rest ->.
    destruct (array_head_items X _ Hf Hwf Hitems) as [head [Hs Hh]]; [simpl; lia|].
    rewrite (model_server_input_dict_array X Hf), Hlen. cbn [bind length Nat.leb].
    rewrite Hs. cbn [bind]. rewrite Hh. reflexivity.
  - intros Hshort.
    assert (Hin : model_server.input_dict X = Raise (ValueError "Input array too short")).
    { rewrite (model_server_input_dict_array X Hf), Hlen. cbn [bind].
      replace (5 <=? length items)%nat with false
        by (symmetry; apply Nat.leb_gt; exact Hshort).
      reflexivity. }
    unfold model_server.predict. rewrite Hin. split; reflexivity.
  - intros row_items Hri. rewrite Hri in Hres. cbn [bind] in Hres. split.
    + intros a b c d e rest ->. exact Hres.
    + intros Hshort.
      unfold flask_model_server.predict. cbn [bind].
      rewrite (dict_nonempty kvs "data" _ Hd). cbn [bind negb].
      rewrite Hres. cbn [bind]. unfold dict_zip. rewrite missing_feature_dict.
      destruct row_items as [|a [|b [|c [|d0 [|e rest]]]]];
        try reflexivity. simpl in Hshort. lia.
  - intros exc Hexc. rewrite Hexc in Hres. cbn [bind] in Hres.
    unfold flask_model_server.predict. cbn [bind].
    rewrite (dict_nonempty kvs "data" _ Hd). cbn [bind negb]. now rewrite Hres.
Qed.

Lemma array_input_by_position_witness :
  (model_server.input_dict scenario.array
   = Ok (PDict [("age", PNpInt 35); ("income", PNpInt 75000); ("education", PNpInt 16);
                ("experience", PNpInt 10); ("credit_score", PNpInt 750)])
   /\ flask_model_server.resolve_instance
        (PDict [("data", PDict [("ndarray", PList [PList scenario.values])])])
      = Ok scenario.record)
  /\ (snd (model_server.predict scenario.times_out model_server.init ∅
             (PNdarray [1%nat; 5%nat] scenario.values))
      = model_server.Error [0.0%float] "error" 0.0%float (Text "Input array too short")
      /\ flask_model_server.predict scenario.times_out
           (Ok (PDict [("data", PDict [("ndarray",
                         PList [PList [PInt 35; PInt 75000; PInt 16]])])]))
         = (flask_model_server.ErrorBody (Text "Missing required feature: experience"), 400))
  /\ flask_model_server.predict scenario.times_out
       (Ok (PDict [("data", PDict [("ndarray", PList scenario.values)])]))
     = (flask_model_server.ErrorBody (StrOf TypeError), 500).
Proof.
  split; [|split].
  - destruct (array_input_by_position scenario.times_out model_server.init ∅
                scenario.array
                [PNpInt 35; PNpInt 75000; PNpInt 16; PNpInt 10; PNpInt 750]
                [("data", PDict [("ndarray", PList [PList scenario.values])])]
                [("ndarray", PList [PList scenario.values])]
                (PList [PList scenario.values]) (PList scenario.values)
                eq_refl eq_refl eq_refl eq_refl eq_refl eq_refl eq_refl)
      as [Hms [_ [Hflask _]]].
    split.
    + exact (Hms _ _ _ _ _ [] eq_refl).
    + exact (proj1 (Hflask scenario.values eq_refl) _ _ _ _ _ [] eq_refl).
  - destruct (array_input_by_position scenario.times_out model_server.init ∅
                (PNdarray [1%nat; 5%nat] scenario.values)
                [PNdarray [5%nat] scenario.values]
                [("data", PDict [("ndarray", PList [PList [PInt 35; PInt 75000; PInt 16]])])]
                [("ndarray", PList [PList [PInt 35; PInt 75000; PInt 16]])]
                (PList [PList [PInt 35; PInt 75000; PInt 16]])
                (PList [PInt 35; PInt 75000; PInt 16])
                eq_refl eq_refl eq_refl eq_refl eq_refl eq_refl eq_refl)
      as [_ [Hms [Hflask _]]].
    split.
    + apply Hms. simpl. lia.
    + apply (proj2 (Hflask [PInt 35; PInt 75000; PInt 16] eq_refl)). simpl. lia.
  - destruct (array_input_by_position scenario.times_out model_server.init ∅
                scenario.array
                [PNpInt 35; PNpInt 75000; PNpInt 16; PNpInt 10; PNpInt 750]
                [("data", PDict [("ndarray", PList scenario.values)])]
                [("ndarray", PList scenario.values)]
                (PList scenario.values) (PInt 35)
                eq_refl eq_refl eq_refl eq_refl eq_refl eq_refl eq_refl)
      as [_ [_ [_ [Hflask _]]]].
    exact (Hflask TypeError eq_refl).
Defined.

(** C8, as stated, fails in the REST server: the ndarray row
    [35, 75000, 16] is refused as a record that lacks experience, with the
    message of a missing field and not with the one of a short array, which
    the model server gives for the same items. *)
Lemma flask_short_array_is_missing_field :
  flask_model_server.predict (scenario.answers scenario.approved_text)
    (Ok (PDict [("data", PDict [("ndarray", PList [PList [PInt 35; PInt 75000; PInt 16]])])]))
  = (flask_model_server.ErrorBody (Text "Missing required feature: experience"), 400)
  /\ snd (model_server.predict (scenario.answers scenario.approved_text) model_server.init ∅
            (PList [PInt 35; PInt 75000; PInt 16]))
     = model_server.Error [0.0%float] "error" 0.0%float (Text "Input array too short")
  /\ Text "Missing required feature: experience" <> Text "Input array too short".
Proof. repeat split. discriminate. Qed.

(** ** The temporary file *)

(** C9 at its failing input. The model server is given the integer array
    numpy.array([35, 75000, 16, 10, 750]); its items are numpy integers,
    which [json.dump] refuses after the temporary file has been created and
    before the [try] whose [finally] removes it is entered: the call answers
    with the error dictionary and the file stays. *)
Theorem temporary_file_left_behind :
  model_server.input_dict scenario.array
  = Ok (PDict [("age", PNpInt 35); ("income", PNpInt 75000); ("education", PNpInt 16);
               ("experience", PNpInt 10); ("credit_score", PNpInt 750)])
  /\ snd (model_server.predict (scenario.answers scenario.approved_text)
            model_server.init ∅ scenario.array)
     = model_server.Error [0.0%float] "error" 0.0%float (StrOf TypeError)
  /\ (scenario.tmp ∉ (∅ : gset string))
  /\ (scenario.tmp ∈ snd (fst (model_server.predict (scenario.answers scenario.approved_text)
                                 model_server.init ∅ scenario.array))).
Proof.
  rewrite (model_server_predict_dump_fails _ _ _ _
             (PDict [("age", PNpInt 35); ("income", PNpInt 75000); ("education", PNpInt 16);
                     ("experience", PNpInt 10); ("credit_score", PNpInt 750)]) TypeError)
    by reflexivity.
  cbn [fst snd]. repeat split; set_solver.
Qed.

(** ** The scenarios of the specification, run *)

Example direct_record_is_predicted :
  flask_model_server.predict (scenario.answers scenario.approved_text) (Ok scenario.record)
  = (flask_model_server.Predictions (PFloat 0.75) (PStr "approved") (PFloat 0.5)
       scenario.record "loan-approval-rf" "1.0.0", 200).
Proof. reflexivity. Qed.

Example instances_envelope_is_predicted :
  flask_model_server.predict (scenario.answers scenario.approved_text)
    (Ok (PDict [("instances", PList [scenario.record])]))
  = flask_model_server.predict (scenario.answers scenario.approved_text) (Ok scenario.record).
Proof. reflexivity. Qed.

Example ndarray_envelope_is_predicted :
  flask_model_server.predict (scenario.answers scenario.approved_text)
    (Ok (PDict [("data", PDict [("ndarray", PList [PList scenario.values])])]))
  = flask_model_server.predict (scenario.answers scenario.approved_text) (Ok scenario.record).
Proof. reflexivity. Qed.

Example empty_body_is_refused :
  flask_model_server.predict (scenario.answers scenario.approved_text) (Ok (PDict []))
  = (flask_model_server.ErrorBody (Text "No JSON data provided"), 400).
Proof. reflexivity. Qed.

Example model_class_answers_both_classes :
  seldon_model.predict (scenario.answers scenario.approved_text) scenario.array
  = [[0.25%float; 0.75%float]].
Proof. reflexivity. Qed.

Example model_class_refuses_a_list :
  seldon_model.input_dict (PList scenario.values) = Raise AttributeError.
Proof. reflexivity. Qed.

Example model_server_answers :
  snd (model_server.predict (scenario.answers scenario.approved_text) model_server.init ∅
         scenario.record)
  = model_server.Prediction [PFloat 0.75] (PStr "approved") (PFloat 0.5).
Proof. reflexivity. Qed.

Example worker_at_one_half_denies :
  flask_model_server.predict_loan 0.5%float = Rlist 0.5%float (Some "denied") 0%float.
Proof. reflexivity. Qed.

Example worker_on_nan_has_no_label :
  flask_model_server.predict_loan nan = Rlist nan None nan.
Proof. reflexivity. Qed.

(** * Further properties of the adapters *)

(** ** The answers of the REST server *)

Ltac answer_class :=
  first [ left; eexists; reflexivity
        | right; left; reflexivity
        | right; right; do 3 eexists; reflexivity ].

Lemma flask_try_answers (env : environment) (instance : pyval) :
  (exists msg, flask_model_server.try_prediction env instance
               = (flask_model_server.ErrorBody msg, 500))
  \/ flask_model_server.try_prediction env instance
     = (flask_model_server.ErrorBody (Text "Prediction timeout"), 504)
  \/ (exists a b c, flask_model_server.try_prediction env instance
                    = (flask_model_server.Predictions a b c instance
                         "loan-approval-rf" "1.0.0", 200)).
Proof.
  unfold flask_model_server.try_prediction, flask_model_server.run_prediction.
  destruct (json_dumps instance) as [text|e]; cbn [bind]; [|destruct e; answer_class].
  destruct (subprocess_run env _) as [process|e]; cbn [bind]; [|destruct e; answer_class].
  destruct (returncode process =? 0); cbn [negb]; [|answer_class].
  destruct (json_loads env _) as [doc|]; [|answer_class].
  destruct (py_getitem doc "probability") as [a|e]; cbn [bind]; [|destruct e; answer_class].
  destruct (py_getitem doc "prediction") as [b|e]; cbn [bind]; [|destruct e; answer_class].
  destruct (py_getitem doc "confidence") as [c|e]; cbn [bind]; [|destruct e; answer_class].
  destruct (py_format_f c) as [u|e]; cbn [bind]; [|destruct e; answer_class].
  answer_class.
Qed.

Lemma flask_try_not_400 (env : environment) (instance : pyval) (b : flask_model_server.body) :
  flask_model_server.try_prediction env instance <> (b, 400).
Proof.
  destruct (flask_try_answers env instance) as [[msg H]|[H|[x [y [z H]]]]];
    rewrite H; intros [=].
Qed.

(** Every answer of predict is an error body with status 400, 500 or 504
    (the last with the timeout message only), or a prediction with status
    200. *)
Theorem flask_predict_answers (env : environment) (get_json : result pyval) :
  (exists msg, flask_model_server.predict env get_json
               = (flask_model_server.ErrorBody (Text msg), 400))
  \/ (exists msg, flask_model_server.predict env get_json
                  = (flask_model_server.ErrorBody msg, 500))
  \/ flask_model_server.predict env get_json
     = (flask_model_server.ErrorBody (Text "Prediction timeout"), 504)
  \/ (exists a b c instance,
        flask_model_server.predict env get_json
        = (flask_model_server.Predictions a b c instance "loan-approval-rf" "1.0.0", 200)).
Proof.
  unfold flask_model_server.predict.
  destruct get_json as [data|e]; cbn [bind]; [|right; left; eauto].
  destruct (py_truthy data) as [[]|e]; cbn [bind negb];
    [|left; eauto|right; left; eauto].
  destruct (flask_model_server.resolve_instance data) as [instance|e]; cbn [bind];
    [|right; left; eauto].
  destruct (flask_model_server.missing_feature _ instance) as [[feature|]|e]; cbn [bind];
    [left; eauto| |right; left; eauto].
  destruct (flask_try_answers env instance) as [[msg H]|[H|[a [b [c H]]]]]; rewrite H.
  - right; left; eauto.
  - right; right; left; reflexivity.
  - right; right; right. eauto.
Qed.

Lemma truthy_is_not_no_data (env : environment) (data : pyval) :
  py_truthy data = Ok true ->
  flask_model_server.predict env (Ok data)
  <> (flask_model_server.ErrorBody (Text "No JSON data provided"), 400).
Proof.
  intros Ht. unfold flask_model_server.predict. cbn [bind]. rewrite Ht. cbn [bind negb].
  destruct (flask_model_server.resolve_instance data) as [instance|e]; cbn [bind];
    [|discriminate].
  destruct (flask_model_server.missing_feature _ instance) as [[feature|]|e]; cbn [bind];
    [discriminate| |discriminate].
  apply flask_try_not_400.
Qed.

Lemma falsy_json (data : pyval) :
  json_serializable data = true ->
  (py_truthy data = Ok false
   <-> data = PNone \/ data = PBool false \/ data = PInt 0
       \/ (exists f, data = PFloat f /\ PrimFloat.eqb f 0%float = true)
       \/ data = PStr "" \/ data = PList [] \/ data = PDict []).
Proof.
  intros Hj. destruct data; try discriminate Hj; cbn [py_truthy]; split.
  - auto.
  - reflexivity.
  - destruct b; [discriminate | auto].
  - intros [H|[H|[H|[[f [H _]]|[H|[H|H]]]]]]; try discriminate H. now injection H as ->.
  - intros [= H]. apply negb_false_iff, Z.eqb_eq in H. subst. auto.
  - intros [H|[H|[H|[[f' [H _]]|[H|[H|H]]]]]]; try discriminate H. now injection H as ->.
  - intros [= H]. apply negb_false_iff in H. right; right; right; left. eauto.
  - intros [H|[H|[H|[[f' [H H']]|[H|[H|H]]]]]]; try discriminate H.
    injection H as ->. now rewrite H'.
  - intros [= H]. apply negb_false_iff, String.eqb_eq in H. subst. auto 8.
  - intros [H|[H|[H|[[f' [H _]]|[H|[H|H]]]]]]; try discriminate H. now injection H as ->.
  - destruct l; [auto 8 | discriminate].
  - intros [H|[H|[H|[[f' [H _]]|[H|[H|H]]]]]]; try discriminate H. now injection H as ->.
  - destruct kvs; [auto 8 | discriminate].
  - intros [H|[H|[H|[[f' [H _]]|[H|[H|H]]]]]]; try discriminate H. now injection H as ->.
Qed.

(** A parsed JSON body is answered with status 400 and "No JSON data
    provided" exactly when it is one of null, false, 0, 0.0, the empty
    string, the empty array and the empty object; the worker plays no
    part. *)
Theorem flask_no_data (env : environment) (data : pyval) :
  json_serializable data = true ->
  (flask_model_server.predict env (Ok data)
   = (flask_model_server.ErrorBody (Text "No JSON data provided"), 400)
   <-> data = PNone \/ data = PBool false \/ data = PInt 0
       \/ (exists f, data = PFloat f /\ PrimFloat.eqb f 0%float = true)
       \/ data = PStr "" \/ data = PList [] \/ data = PDict []).
Proof.
  intros Hj. rewrite <- (falsy_json data Hj). split.
  - intros H. destruct (py_truthy data) as [[]|e] eqn:Ht.
    + now elim (truthy_is_not_no_data env data Ht).
    + reflexivity.
    + unfold flask_model_server.predict in H. cbn [bind] in H.
      rewrite Ht in H. discriminate H.
  - intros Ht. unfold flask_model_server.predict. cbn [bind]. now rewrite Ht.
Qed.

Lemma flask_no_data_witness :
  flask_model_server.predict scenario.times_out (Ok (PFloat (-0)%float))
  = (flask_model_server.ErrorBody (Text "No JSON data provided"), 400)
  <-> PFloat (-0)%float = PNone \/ PFloat (-0)%float = PBool false
      \/ PFloat (-0)%float = PInt 0
      \/ (exists f, PFloat (-0)%float = PFloat f /\ PrimFloat.eqb f 0%float = true)
      \/ PFloat (-0)%float = PStr "" \/ PFloat (-0)%float = PList []
      \/ PFloat (-0)%float = PDict [].
Proof.
  apply (flask_no_data scenario.times_out (PFloat (-0)%float)). reflexivity.
Defined.

(** ** Which field is reported missing *)

Lemma find_split {A : Type} (P : A -> bool) (l : list A) (x : A) :
  List.find P l = Some x
  <-> exists l1 l2, l = (l1 ++ x :: l2)%list /\ P x = true
                    /\ forall y, In y l1 -> P y = false.
Proof.
  induction l as [|a l IH]; simpl.
  - split; [discriminate | intros [[|? ?] [l2 [H _]]]; discriminate H].
  - destruct (P a) eqn:Ha; split.
    + intros [= ->]. exists [], l. simpl. tauto.
    + intros [[|b l1] [l2 [H [Hx Hl1]]]]; simpl in H; injection H as -> ->.
      * reflexivity.
      * rewrite (Hl1 b) in Ha; [discriminate | now left].
    + intros H. apply IH in H as [l1 [l2 [-> [Hx Hl1]]]].
      exists (a :: l1), l2. repeat split; auto.
      intros y [<-|Hy]; auto.
    + intros [[|b l1] [l2 [H [Hx Hl1]]]]; simpl in H; injection H as -> ->.
      * rewrite Hx in Ha. discriminate.
      * apply IH. exists l1, l2. repeat split; auto.
        intros y Hy. apply Hl1. now right.
Qed.

Lemma absent_true (record : list (string * pyval)) (feature : string) :
  absent record feature = true <-> dict_get record feature = None.
Proof.
  unfold absent, dict_has. destruct (dict_get record feature); simpl; split;
    intros H; (discriminate H || reflexivity).
Qed.

Lemma absent_false (record : list (string * pyval)) (feature : string) :
  absent record feature = false <-> dict_get record feature <> None.
Proof.
  unfold absent, dict_has. destruct (dict_get record feature); simpl; split;
    intros H; try discriminate; try reflexivity. now elim H.
Qed.

Lemma append_cancel (prefix a b : string) : prefix ++ a = prefix ++ b -> a = b.
Proof. induction prefix as [|c prefix IH]; simpl; [auto | intros [= H]; auto]. Qed.

(** For a resolved record that is an object, predict names a field as
    missing exactly when the field is absent and every schema name before it
    is present: the report follows the order age, income, education,
    experience, credit_score. A record with all five reaches the worker. *)
Theorem flask_reports_first_missing
    (env : environment) (data : pyval) (record : list (string * pyval)) (feature : string) :
  py_truthy data = Ok true ->
  flask_model_server.resolve_instance data = Ok (PDict record) ->
  (flask_model_server.predict env (Ok data)
   = (flask_model_server.ErrorBody (Text ("Missing required feature: " ++ feature)), 400)
   <-> exists before after,
         flask_model_server.feature_names = (before ++ feature :: after)%list
         /\ dict_get record feature = None
         /\ forall g, In g before -> dict_get record g <> None)
  /\ ((forall g, In g flask_model_server.feature_names -> dict_get record g <> None) ->
      flask_model_server.predict env (Ok data)
      = flask_model_server.try_prediction env (PDict record)).
Proof.
  intros Ht Hr.
  assert (Hp : flask_model_server.predict env (Ok data)
               = match List.find (absent record) flask_model_server.feature_names with
                 | Some f => (flask_model_server.ErrorBody
                                (Text ("Missing required feature: " ++ f)), 400)
                 | None => flask_model_server.try_prediction env (PDict record)
                 end).
  { unfold flask_model_server.predict. cbn [bind]. rewrite Ht. cbn [bind negb].
    rewrite Hr. cbn [bind]. rewrite missing_feature_dict.
    now destruct (List.find _ _). }
  rewrite Hp. split.
  - destruct (List.find (absent record) flask_model_server.feature_names) as [f|] eqn:Hf.
    + split.
      * intros [= H]. apply append_cancel in H. subst f.
        apply find_split in Hf as [before [after [Hs [Ha Hb]]]].
        exists before, after. repeat split; auto.
        -- now apply absent_true.
        -- intros g Hg. apply absent_false. auto.
      * intros [before [after [Hs [Ha Hb]]]].
        assert (Hf' : List.find (absent record) flask_model_server.feature_names = Some feature).
        { apply find_split. exists before, after. repeat split; auto.
          - now apply absent_true.
          - intros y Hy. apply absent_false. auto. }
        rewrite Hf in Hf'. now injection Hf' as ->.
    + split.
      * intros H. now elim (flask_try_not_400 env (PDict record) _ H).
      * intros [before [after [Hs [Ha Hb]]]].
        assert (Hf' : List.find (absent record) flask_model_server.feature_names = Some feature).
        { apply find_split. exists before, after. repeat split; auto.
          - now apply absent_true.
          - intros y Hy. apply absent_false. auto. }
        rewrite Hf in Hf'. discriminate.
  - intros Hall.
    destruct (List.find (absent record) flask_model_server.feature_names) as [f|] eqn:Hf;
      [|reflexivity].
    apply find_some in Hf as [Hin Ha]. apply absent_true in Ha. now elim (Hall f Hin).
Qed.

Lemma flask_reports_first_missing_witness :
  (flask_model_server.predict scenario.times_out
     (Ok (PDict [("age", PInt 35); ("education", PInt 16)]))
   = (flask_model_server.ErrorBody (Text ("Missing required feature: " ++ "income")), 400)
   <-> exists before after,
         flask_model_server.feature_names = (before ++ "income" :: after)%list
         /\ dict_get [("age", PInt 35); ("education", PInt 16)] "income" = None
         /\ forall g, In g before -> dict_get [("age", PInt 35); ("education", PInt 16)] g <> None)
  /\ ((forall g, In g flask_model_server.feature_names ->
                 dict_get [("age", PInt 35); ("education", PInt 16)] g <> None) ->
      flask_model_server.predict scenario.times_out
        (Ok (PDict [("age", PInt 35); ("education", PInt 16)]))
      = flask_model_server.try_prediction scenario.times_out
          (PDict [("age", PInt 35); ("education", PInt 16)])).
Proof.
  apply (flask_reports_first_missing scenario.times_out
           (PDict [("age", PInt 35); ("education", PInt 16)])
           [("age", PInt 35); ("education", PInt 16)] "income"); reflexivity.
Defined.

(** ** What a completed invocation gives the REST server *)

Lemma getitem_ok_field (doc : pyval) (key : string) (v : pyval) :
  py_getitem doc key = Ok v <-> field doc key = Some v.
Proof.
  pose proof (getitem_field doc key) as H.
  destruct (field doc key) as [w|]; split.
  - rewrite H. now intros [= ->].
  - intros [= ->]. exact H.
  - destruct H as [e ->]. discriminate.
  - discriminate.
Qed.

Lemma format_ok_unit (v : pyval) (u : unit) : py_format_f v = Ok u -> py_format_f v = Ok tt.
Proof. now destruct u. Qed.

(** When a request leads to a command, predict answers with status 200
    exactly when the invocation completes with a document that has the three
    result fields and a numeric confidence; the answer then carries these
    three values as the worker gave them and the resolved record as input. *)
Theorem flask_prediction_passes_through
    (env : environment) (data : pyval) (cmd : command) :
  flask_command data = Some cmd ->
  (snd (flask_model_server.predict env (Ok data)) = 200
   <-> exists doc a b c,
         invoke env cmd = Completed doc
         /\ field doc "probability" = Some a
         /\ field doc "prediction" = Some b
         /\ field doc "confidence" = Some c
         /\ py_format_f c = Ok tt)
  /\ (forall doc a b c,
        invoke env cmd = Completed doc ->
        field doc "probability" = Some a ->
        field doc "prediction" = Some b ->
        field doc "confidence" = Some c ->
        py_format_f c = Ok tt ->
        exists instance,
          flask_model_server.resolve_instance data = Ok instance
          /\ flask_model_server.predict env (Ok data)
             = (flask_model_server.Predictions a b c instance "loan-approval-rf" "1.0.0", 200)).
Proof.
  intros Hc.
  assert (Hres : exists instance text,
             flask_model_server.resolve_instance data = Ok instance
             /\ cmd = Rscript flask_script [] (Some text) 30
             /\ json_dumps instance = Ok text
             /\ flask_model_server.predict env (Ok data)
                = flask_model_server.try_prediction env instance).
  { unfold flask_command in Hc. unfold flask_model_server.predict. cbn [bind].
    destruct (py_truthy data) as [[]|]; try discriminate. cbn [bind negb].
    destruct (flask_model_server.resolve_instance data) as [i|]; try discriminate.
    cbn [bind].
    destruct (flask_model_server.missing_feature _ i) as [[]|]; try discriminate.
    destruct (json_dumps i) as [t|] eqn:Hd; try discriminate.
    injection Hc as <-. exists i, t. auto. }
  destruct Hres as [instance [text [Hr [-> [Hd Hp]]]]]. rewrite Hp.
  unfold flask_model_server.try_prediction, flask_model_server.run_prediction, invoke.
  rewrite Hd. cbn [bind].
  destruct (subprocess_run env _) as [process|e]; cbn [bind].
  2:{ split.
      - split; [destruct e; discriminate | intros [doc [a [b [c [H _]]]]]; destruct e; discriminate H].
      - intros doc a b c H. destruct e; discriminate H. }
  destruct (returncode process =? 0); cbn [negb].
  2:{ split.
      - split; [discriminate | intros [doc [a [b [c [H _]]]]]; discriminate H].
      - intros doc a b c H. discriminate H. }
  destruct (json_loads env _) as [doc|].
  2:{ split.
      - split; [discriminate | intros [doc [a [b [c [H _]]]]]; discriminate H].
      - intros doc a b c H. discriminate H. }
  split.
  - split.
    + destruct (py_getitem doc "probability") as [a|e] eqn:Ha; cbn [bind];
        [|destruct e; discriminate].
      destruct (py_getitem doc "prediction") as [b|e] eqn:Hb; cbn [bind];
        [|destruct e; discriminate].
      destruct (py_getitem doc "confidence") as [c|e] eqn:Hcf; cbn [bind];
        [|destruct e; discriminate].
      destruct (py_format_f c) as [u|e] eqn:Hf; cbn [bind]; [|destruct e; discriminate].
      intros _. exists doc, a, b, c. repeat split; try (now apply getitem_ok_field).
      exact (format_ok_unit c u Hf).
    + intros [doc' [a [b [c [[= <-] [Ha [Hb [Hcf Hf]]]]]]]].
      apply getitem_ok_field in Ha, Hb, Hcf. rewrite Ha, Hb, Hcf. cbn [bind].
      rewrite Hf. reflexivity.
  - intros doc' a b c [= <-] Ha Hb Hcf Hf. exists instance. split; [exact Hr|].
    apply getitem_ok_field in Ha, Hb, Hcf. rewrite Ha, Hb, Hcf. cbn [bind].
    rewrite Hf. reflexivity.
Qed.

Lemma flask_prediction_passes_through_witness :
  snd (flask_model_server.predict (scenario.answers scenario.approved_text)
         (Ok scenario.record)) = 200
  /\ exists instance,
       flask_model_server.resolve_instance scenario.record = Ok instance
       /\ flask_model_server.predict (scenario.answers scenario.approved_text)
            (Ok scenario.record)
          = (flask_model_server.Predictions (PFloat 0.75) (PStr "approved") (PFloat 0.5)
               instance "loan-approval-rf" "1.0.0", 200).
Proof.
  destruct (flask_prediction_passes_through (scenario.answers scenario.approved_text)
              scenario.record scenario.flask_cmd eq_refl) as [Hiff Hval].
  split.
  - apply Hiff. exists scenario.approved_doc, (PFloat 0.75), (PStr "approved"), (PFloat 0.5).
    repeat split.
  - apply (Hval scenario.approved_doc); reflexivity.
Defined.

(** Output that does not parse is answered with status 500 and the fixed
    message "Invalid JSON from R script", whatever the output was. *)
Theorem flask_malformed_output
    (env : environment) (data : pyval) (cmd : command) (raw : string) :
  flask_command data = Some cmd ->
  invoke env cmd = MalformedOutput raw ->
  flask_model_server.predict env (Ok data)
  = (flask_model_server.ErrorBody (Text "Invalid JSON from R script"), 500).
Proof.
  intros Hc. destruct (flask_predict_invokes env data cmd Hc)
    as [instance [text [-> [Hd ->]]]].
  unfold flask_model_server.try_prediction, flask_model_server.run_prediction, invoke.
  rewrite Hd. cbn [bind].
  destruct (subprocess_run env _) as [process|e]; cbn [bind]; [|destruct e; discriminate].
  destruct (returncode process =? 0); cbn [negb]; [|discriminate].
  destruct (json_loads env _); [discriminate | reflexivity].
Qed.

Lemma flask_malformed_output_witness :
  flask_model_server.predict (scenario.answers "Error in library(randomForest)")
    (Ok scenario.record)
  = (flask_model_server.ErrorBody (Text "Invalid JSON from R script"), 500).
Proof.
  apply (flask_malformed_output (scenario.answers "Error in library(randomForest)")
           scenario.record scenario.flask_cmd "Error in library(randomForest)");
    reflexivity.
Defined.

(** ** The envelopes and the direct format *)

Lemma flask_predict_of_instance (env : environment) (data instance : pyval) :
  py_truthy data = Ok true ->
  flask_model_server.resolve_instance data = Ok instance ->
  flask_model_server.predict env (Ok data)
  = match flask_model_server.missing_feature flask_model_server.feature_names instance with
    | Ok (Some feature) =>
        (flask_model_server.ErrorBody (Text ("Missing required feature: " ++ feature)), 400)
    | Ok None => flask_model_server.try_prediction env instance
    | Raise e => (flask_model_server.ErrorBody (py_str_exn e), 500)
    end.
Proof.
  intros Ht Hr. unfold flask_model_server.predict. cbn [bind]. rewrite Ht. cbn [bind negb].
  rewrite Hr. cbn [bind].
  now destruct (flask_model_server.missing_feature _ instance) as [[]|].
Qed.

Lemma flask_resolve_direct (kvs : list (string * pyval)) :
  dict_get kvs "instances" = None ->
  dict_get kvs "data" = None ->
  flask_model_server.resolve_instance (PDict kvs) = Ok (PDict kvs).
Proof.
  intros Hi Hd. unfold flask_model_server.resolve_instance.
  cbn [py_contains bind]. now rewrite !dict_has_get, Hi, Hd.
Qed.

Lemma truthy_dict (kvs : list (string * pyval)) :
  kvs <> [] -> py_truthy (PDict kvs) = Ok true.
Proof. destruct kvs; [intros H; now elim H | reflexivity]. Qed.

(** A non-empty record with no key instances or data is answered the same
    whether it is sent directly, as the first element of instances (the
    elements after the first are ignored), or, when it has no key ndarray,
    as the value of data. *)
Theorem flask_envelopes_agree
    (env : environment) (body kvs : list (string * pyval)) (rest : list pyval) :
  kvs <> [] ->
  dict_get kvs "instances" = None ->
  dict_get kvs "data" = None ->
  (dict_get body "instances" = Some (PList (PDict kvs :: rest)) ->
   flask_model_server.predict env (Ok (PDict body))
   = flask_model_server.predict env (Ok (PDict kvs)))
  /\ (dict_get body "instances" = None ->
      dict_get body "data" = Some (PDict kvs) ->
      dict_get kvs "ndarray" = None ->
      flask_model_server.predict env (Ok (PDict body))
      = flask_model_server.predict env (Ok (PDict kvs))).
Proof.
  intros Hne Hi Hd.
  pose proof (flask_predict_of_instance env (PDict kvs) (PDict kvs)
                (truthy_dict kvs Hne) (flask_resolve_direct kvs Hi Hd)) as Hdirect.
  split.
  - intros Hb. rewrite Hdirect.
    apply flask_predict_of_instance; [exact (dict_nonempty body _ _ Hb)|].
    unfold flask_model_server.resolve_instance. cbn [py_contains bind].
    rewrite dict_has_get, Hb, (getitem_of_get _ _ _ Hb). reflexivity.
  - intros Hbi Hbd Hn. rewrite Hdirect.
    apply flask_predict_of_instance; [exact (dict_nonempty body _ _ Hbd)|].
    unfold flask_model_server.resolve_instance. cbn [py_contains bind].
    rewrite !dict_has_get, Hbi, Hbd, (getitem_of_get _ _ _ Hbd). cbn [py_contains bind].
    rewrite dict_has_get, Hn. reflexivity.
Qed.

Lemma flask_envelopes_agree_witness :
  flask_model_server.predict (scenario.answers scenario.approved_text)
    (Ok (PDict [("instances", PList [scenario.record; PInt 7])]))
  = flask_model_server.predict (scenario.answers scenario.approved_text) (Ok scenario.record)
  /\ flask_model_server.predict (scenario.answers scenario.approved_text)
       (Ok (PDict [("data", scenario.record)]))
     = flask_model_server.predict (scenario.answers scenario.approved_text) (Ok scenario.record).
Proof.
  split.
  - refine (proj1 (flask_envelopes_agree (scenario.answers scenario.approved_text)
                     [("instances", PList [scenario.record; PInt 7])]
                     [("age", PInt 35); ("income", PInt 75000); ("education", PInt 16);
                      ("experience", PInt 10); ("credit_score", PInt 750)] [PInt 7]
                     _ eq_refl eq_refl) eq_refl).
    discriminate.
  - refine (proj2 (flask_envelopes_agree (scenario.answers scenario.approved_text)
                     [("data", scenario.record)]
                     [("age", PInt 35); ("income", PInt 75000); ("education", PInt 16);
                      ("experience", PInt 10); ("credit_score", PInt 750)] []
                     _ eq_refl eq_refl) eq_refl eq_refl eq_refl).
    discriminate.
Defined.

Lemma combine_get_other (names : list string) (values : list pyval) (key : string) :
  forallb (fun n => negb (String.eqb n key)) names = true ->
  dict_get (combine names values) key = None.
Proof.
  revert values. induction names as [|n names IH]; intros values H; [reflexivity|].
  destruct values as [|v values]; [reflexivity|].
  simpl in H. apply andb_prop in H as [Hn Hrest]. simpl.
  apply negb_true_iff in Hn. rewrite Hn. auto.
Qed.

(** A non-empty ndarray row is answered as the record its zip with the five
    names makes is answered when sent directly; the rows after the first
    and the items after the fifth are ignored. *)
Theorem flask_ndarray_envelope
    (env : environment) (body d : list (string * pyval)) (row rows : list pyval) :
  row <> [] ->
  dict_get body "instances" = None ->
  dict_get body "data" = Some (PDict d) ->
  dict_get d "ndarray" = Some (PList (PList row :: rows)) ->
  flask_model_server.predict env (Ok (PDict body))
  = flask_model_server.predict env
      (Ok (PDict (combine flask_model_server.feature_names (firstn 5 row)))).
Proof.
  intros Hne Hi Hd Hn.
  assert (Hcut : combine flask_model_server.feature_names (firstn 5 row)
                 = combine flask_model_server.feature_names row).
  { destruct row as [|a [|b [|c [|d0 [|e rest]]]]]; reflexivity. }
  rewrite Hcut.
  rewrite (flask_predict_of_instance env (PDict body)
             (PDict (combine flask_model_server.feature_names row))
             (dict_nonempty body _ _ Hd) (flask_resolve_ndarray body d row rows Hi Hd Hn)).
  symmetry. apply flask_predict_of_instance.
  - destruct row; [now elim Hne | reflexivity].
  - apply flask_resolve_direct; apply combine_get_other; reflexivity.
Qed.

Lemma flask_ndarray_envelope_witness :
  flask_model_server.predict (scenario.answers scenario.approved_text)
    (Ok (PDict [("data", PDict [("ndarray",
                  PList [PList (scenario.values ++ [PInt 1])%list; PList []])])]))
  = flask_model_server.predict (scenario.answers scenario.approved_text)
      (Ok (PDict (combine flask_model_server.feature_names
                    (firstn 5 (scenario.values ++ [PInt 1])%list)))).
Proof.
  apply (flask_ndarray_envelope (scenario.answers scenario.approved_text)
           [("data", PDict [("ndarray",
                  PList [PList (scenario.values ++ [PInt 1])%list; PList []])])]
           [("ndarray", PList [PList (scenario.values ++ [PInt 1])%list; PList []])]
           (scenario.values ++ [PInt 1])%list [PList []]);
    (discriminate || reflexivity).
Defined.

(** ** Serialization of the record *)

Lemma json_list_unfold (l : list pyval) :
  json_serializable (PList l) = forallb json_serializable l.
Proof. reflexivity. Qed.

Lemma json_dict_unfold (kvs : list (string * pyval)) :
  json_serializable (PDict kvs) = forallb (fun kv => json_serializable (snd kv)) kvs.
Proof. reflexivity. Qed.

Lemma json_dict_get (kvs : list (string * pyval)) (k : string) (v : pyval) :
  json_serializable (PDict kvs) = true ->
  dict_get kvs k = Some v ->
  json_serializable v = true.
Proof.
  rewrite json_dict_unfold. induction kvs as [|[k' v'] kvs IH]; [discriminate|].
  cbn [forallb dict_get snd]. intros H. apply andb_prop in H as [Hv Hrest].
  destruct (String.eqb k' k); [now intros [= <-] | auto].
Qed.

Lemma json_getitem (v : pyval) (k : string) (x : pyval) :
  json_serializable v = true -> py_getitem v k = Ok x -> json_serializable x = true.
Proof.
  destruct v; try discriminate. intros Hj. cbn [py_getitem].
  destruct (dict_get kvs k) as [y|] eqn:Hg; [|discriminate].
  intros [= <-]. exact (json_dict_get kvs k y Hj Hg).
Qed.

Lemma json_getitem0 (v x : pyval) :
  json_serializable v = true -> py_getitem0 v = Ok x -> json_serializable x = true.
Proof.
  destruct v; try discriminate; cbn [py_getitem0].
  - intros _. destruct s; [discriminate | now intros [= <-]].
  - rewrite json_list_unfold. destruct l as [|y l]; [discriminate|].
    cbn [forallb]. intros H [= <-]. now apply andb_prop in H as [H _].
Qed.

Lemma json_chars (s : string) : forallb json_serializable (chars s) = true.
Proof.
  unfold chars. induction (list_ascii_of_string s) as [|c l IH]; [reflexivity|].
  cbn [map forallb]. exact IH.
Qed.

Lemma json_iter (v : pyval) (items : list pyval) :
  json_serializable v = true -> py_iter v = Ok items ->
  forallb json_serializable items = true.
Proof.
  destruct v; try discriminate; cbn [py_iter].
  - intros _ [= <-]. apply json_chars.
  - rewrite json_list_unfold. now intros H [= <-].
  - intros _ [= <-]. induction kvs as [|kv kvs IH]; [reflexivity | exact IH].
Qed.

Lemma json_dict_zip (names : list string) (items : list pyval) :
  forallb json_serializable items = true ->
  json_serializable (dict_zip names items) = true.
Proof.
  unfold dict_zip. rewrite json_dict_unfold. revert items.
  induction names as [|n names IH]; intros items H; [reflexivity|].
  destruct items as [|x items]; [reflexivity|].
  cbn [forallb] in H. apply andb_prop in H as [Hx Hrest].
  cbn [combine forallb snd]. rewrite Hx. cbn [andb]. auto.
Qed.

(** The record resolved from a parsed JSON body is a JSON document again,
    so [json.dumps] does not raise on it: a non-empty JSON body that resolves
    to a record with the five fields always leads to a worker command, whose
    standard input is that record. *)
Theorem flask_record_is_json (data instance : pyval) :
  json_serializable data = true ->
  flask_model_server.resolve_instance data = Ok instance ->
  json_dumps instance = Ok (JsonText instance)
  /\ (py_truthy data = Ok true ->
      flask_model_server.missing_feature flask_model_server.feature_names instance = Ok None ->
      flask_command data = Some (Rscript flask_script [] (Some (JsonText instance)) 30)).
Proof.
  intros Hj Hr.
  assert (Hi : json_serializable instance = true).
  { revert Hr. unfold flask_model_server.resolve_instance.
    destruct (py_contains data "instances") as [[]|]; cbn [bind]; try discriminate.
    - destruct (py_getitem data "instances") as [v|] eqn:Hg; cbn [bind]; try discriminate.
      apply json_getitem0. exact (json_getitem data _ v Hj Hg).
    - destruct (py_contains data "data") as [[]|]; cbn [bind]; try discriminate.
      + destruct (py_getitem data "data") as [d|] eqn:Hd; cbn [bind]; try discriminate.
        pose proof (json_getitem data _ d Hj Hd) as Hjd.
        destruct (py_contains d "ndarray") as [[]|]; cbn [bind]; try discriminate.
        * destruct (py_getitem d "ndarray") as [nd|] eqn:Hn; cbn [bind]; try discriminate.
          pose proof (json_getitem d _ nd Hjd Hn) as Hjn.
          destruct (py_getitem0 nd) as [row|] eqn:H0; cbn [bind]; try discriminate.
          pose proof (json_getitem0 nd row Hjn H0) as Hjr.
          destruct (py_iter row) as [items|] eqn:Hit; cbn [bind]; try discriminate.
          intros [= <-]. apply json_dict_zip. exact (json_iter row items Hjr Hit).
        * now intros [= <-].
      + now intros [= <-]. }
  assert (Hd : json_dumps instance = Ok (JsonText instance))
    by (unfold json_dumps; now rewrite Hi).
  split; [exact Hd|].
  intros Ht Hm. unfold flask_command. now rewrite Ht, Hr, Hm, Hd.
Qed.

Lemma flask_record_is_json_witness :
  json_dumps scenario.record = Ok (JsonText scenario.record)
  /\ (py_truthy (PDict [("instances", PList [scenario.record])]) = Ok true ->
      flask_model_server.missing_feature flask_model_server.feature_names scenario.record
      = Ok None ->
      flask_command (PDict [("instances", PList [scenario.record])])
      = Some (Rscript flask_script [] (Some (JsonText scenario.record)) 30)).
Proof.
  apply (flask_record_is_json (PDict [("instances", PList [scenario.record])])
           scenario.record); reflexivity.
Defined.

(** ** The inputs of the model class *)

(** Whatever is not a numpy array gets the default answer without any
    worker being run; a Python list is among these, because its shape is
    asked for before anything else. *)
Theorem seldon_only_arrays_are_predicted (env : environment) (X : pyval) :
  (forall shape flat, X <> PNdarray shape flat) ->
  seldon_command X = None
  /\ seldon_model.predict env X = [[0.5%float; 0.5%float]].
Proof.
  intros Hx.
  assert (Hc : seldon_command X = None).
  { unfold seldon_command. destruct X; try reflexivity. now elim (Hx shape flat). }
  split; [exact Hc|]. now rewrite seldon_predict_by_outcome, Hc.
Qed.

Lemma seldon_only_arrays_are_predicted_witness :
  seldon_command (PList scenario.values) = None
  /\ seldon_model.predict (scenario.answers scenario.approved_text) (PList scenario.values)
     = [[0.5%float; 0.5%float]].
Proof.
  apply (seldon_only_arrays_are_predicted (scenario.answers scenario.approved_text)
           (PList scenario.values)).
  discriminate.
Defined.

(** Of an array of two axes with at least one row only the first row is
    used: the answer is the one the first row gets as an array of one
    axis. *)
Theorem seldon_batch_takes_first_row
    (env : environment) (rows columns : nat) (flat : list pyval) :
  seldon_model.predict env (PNdarray [S rows; columns] flat)
  = seldon_model.predict env (PNdarray [columns] (firstn columns flat)).
Proof.
  assert (H : seldon_model.input_dict (PNdarray [S rows; columns] flat)
              = seldon_model.input_dict (PNdarray [columns] (firstn columns flat))).
  { unfold seldon_model.input_dict, py_getitem0, nd_rows.
    cbn [length Nat.eqb chunk map bind prod_shape fold_right].
    now rewrite Nat.mul_1_r. }
  unfold seldon_model.predict. now rewrite H.
Qed.

Lemma chunk_of_ones (flat : list pyval) :
  map (nd_tolist []) (chunk (length flat) 1 flat) = flat.
Proof.
  induction flat as [|x flat IH]; [reflexivity|].
  simpl. f_equal. exact IH.
Qed.

Lemma tolist_one_axis (flat : list pyval) :
  nd_tolist [length flat] flat = PList flat.
Proof.
  change (nd_tolist [length flat] flat)
    with (PList (map (nd_tolist []) (chunk (length flat) 1 flat))).
  now rewrite chunk_of_ones.
Qed.

(** An array of one axis whose items are JSON values leads to a worker
    command whatever its length: the record is the zip of the five names
    with the items, with fewer than five fields when the array is shorter,
    and no field is checked before the worker runs. *)
Theorem seldon_sends_any_length (flat : list pyval) :
  forallb json_serializable flat = true ->
  seldon_command (PNdarray [length flat] flat)
  = Some (Rscript seldon_script
            [JsonText (PDict (combine seldon_model.feature_names flat))] None 30).
Proof.
  intros Hj. unfold seldon_command, seldon_model.input_dict.
  cbn [length Nat.eqb]. rewrite tolist_one_axis. cbn [bind py_iter].
  unfold json_dumps. now rewrite (json_dict_zip seldon_model.feature_names flat Hj).
Qed.

Lemma seldon_sends_any_length_witness :
  seldon_command (PNdarray [length [PFloat 35; PFloat 75000]] [PFloat 35; PFloat 75000])
  = Some (Rscript seldon_script
            [JsonText (PDict (combine seldon_model.feature_names
                                [PFloat 35; PFloat 75000]))] None 30).
Proof.
  apply (seldon_sends_any_length [PFloat 35; PFloat 75000]). reflexivity.
Defined.

(** C10. The model class's predict is total and returns an array of one
    row and two columns: [[1 - p, p]] when the invocation completes with a
    document that has a numeric probability p and a prediction, and
    [[0.5, 0.5]] in every other case (input that leads to no command,
    timeout, non-zero exit, output that does not parse or lacks these
    fields). A one-axis array of JSON items is such a success whenever the
    worker run on the zip of the five names with its items gives p: the
    array [35, 75000, 16, 10, 750] with a worker that reports 0.75 is
    answered [[0.25, 0.75]]. The default is also the answer to a worker
    probability of 0.5. *)
Theorem seldon_predict_never_raises (env : environment) (X : pyval) (flat : list pyval) :
  seldon_model.predict env X
  = match seldon_command X with
    | Some cmd =>
        match worker_probability (invoke env cmd) with
        | Some p => [[(1.0 - p)%float; p]]
        | None => [[0.5%float; 0.5%float]]
        end
    | None => [[0.5%float; 0.5%float]]
    end
  /\ (exists a b, seldon_model.predict env X = [[a; b]])
  /\ (forallb json_serializable flat = true ->
      seldon_model.predict env (PNdarray [length flat] flat)
      = match worker_probability
                (invoke env (Rscript seldon_script
                               [JsonText (PDict (combine seldon_model.feature_names flat))]
                               None 30)) with
        | Some p => [[(1.0 - p)%float; p]]
        | None => [[0.5%float; 0.5%float]]
        end)
  /\ seldon_model.predict (scenario.answers scenario.approved_text) scenario.array
     = [[0.25%float; 0.75%float]]
  /\ (worker_probability (invoke (scenario.answers scenario.half_text) scenario.seldon_cmd)
      = Some 0.5%float
      /\ seldon_model.predict (scenario.answers scenario.half_text) scenario.array
         = [[0.5%float; 0.5%float]]).
Proof.
  pose proof (seldon_predict_by_outcome env X) as H.
  split; [exact H|]. split; [|split; [|split; [reflexivity | split; reflexivity]]].
  - rewrite H. destruct (seldon_command X) as [cmd|]; [|eexists; eexists; reflexivity].
    destruct (worker_probability _); eexists; eexists; reflexivity.
  - intros Hj. rewrite seldon_predict_by_outcome.
    assert (Hc : seldon_command (PNdarray [length flat] flat)
                 = Some (Rscript seldon_script
                           [JsonText (PDict (combine seldon_model.feature_names flat))]
                           None 30)).
    { unfold seldon_command, seldon_model.input_dict.
      cbn [length Nat.eqb]. rewrite tolist_one_axis. cbn [bind py_iter].
      unfold json_dumps. now rewrite (json_dict_zip seldon_model.feature_names flat Hj). }
    rewrite Hc. reflexivity.
Qed.

(** ** The model server: files and answers *)

(** A call of predict touches no file but its own temporary one, and that
    one is left on disk exactly when the record was built and [json.dump]
    refused it; on every other path (input refused, worker run with any
    outcome) the files are as before. *)
Theorem model_server_files
    (env : environment) (self : model_server.RModelServer) (fs : gset string) (X : pyval) :
  tmp_name env ∉ fs ->
  (forall path, path <> tmp_name env ->
     (path ∈ snd (fst (model_server.predict env self fs X)) <-> path ∈ fs))
  /\ (tmp_name env ∈ snd (fst (model_server.predict env self fs X))
      <-> exists input_data, model_server.input_dict X = Ok input_data
                             /\ json_serializable input_data = false).
Proof.
  intros Hfresh. unfold model_server.predict.
  destruct (model_server.input_dict X) as [input_data|e].
  - unfold json_dumps. destruct (json_serializable input_data) eqn:Hj.
    + rewrite bool_decide_eq_true_2 by set_solver.
      split.
      * intros path Hp.
        destruct (model_server.run_prediction env input_data); cbn [fst snd]; set_solver.
      * split.
        -- destruct (model_server.run_prediction env input_data); cbn [fst snd]; set_solver.
        -- intros [d [[= <-] Hd]]. congruence.
    + cbn [fst snd]. split.
      * intros path Hp. set_solver.
      * split; [intros _; eauto | intros _; set_solver].
  - cbn [fst snd]. split.
    + tauto.
    + split; [intros H; now elim Hfresh | intros [d [H _]]; discriminate H].
Qed.

Lemma model_server_files_witness :
  (forall path, path <> tmp_name scenario.times_out ->
     (path ∈ snd (fst (model_server.predict scenario.times_out model_server.init ∅
                         scenario.record)) <-> path ∈ (∅ : gset string)))
  /\ (tmp_name scenario.times_out
        ∈ snd (fst (model_server.predict scenario.times_out model_server.init ∅
                      scenario.record))
      <-> exists input_data, model_server.input_dict scenario.record = Ok input_data
                             /\ json_serializable input_data = false).
Proof.
  apply (model_server_files scenario.times_out model_server.init ∅ scenario.record).
  set_solver.
Defined.

(** Every failed invocation is answered with the error dictionary
    (predictions [0.0], class "error", confidence 0.0); its message is
    "R prediction failed: " and the worker's stderr after a non-zero exit,
    and the text of the exception otherwise, a timeout included. *)
Theorem model_server_failure_answers
    (env : environment) (self : model_server.RModelServer) (fs : gset string)
    (X : pyval) (cmd : command) :
  model_server_command X = Some cmd ->
  is_failure (invoke env cmd) = true ->
  snd (model_server.predict env self fs X)
  = model_server.Error [0.0%float] "error" 0.0%float
      match invoke env cmd with
      | WorkerError err => Text ("R prediction failed: " ++ err)
      | Timeout => StrOf TimeoutExpired
      | MalformedOutput _ => StrOf JSONDecodeError
      | Crashed e => py_str_exn e
      | Completed _ => Text ""
      end.
Proof.
  unfold model_server_command, model_server.predict.
  destruct (model_server.input_dict X) as [input_data|]; [|discriminate].
  destruct (json_dumps input_data) as [text|] eqn:Hd; [|discriminate].
  intros [= <-]. unfold invoke, model_server.run_prediction. rewrite Hd. cbn [bind].
  destruct (subprocess_run env _) as [process|e].
  - cbn [bind]. destruct (returncode process =? 0); cbn [negb].
    + destruct (json_loads env _); [discriminate | reflexivity].
    + reflexivity.
  - destruct e; reflexivity.
Qed.

Lemma model_server_failure_answers_witness :
  snd (model_server.predict scenario.times_out model_server.init ∅ scenario.record)
  = model_server.Error [0.0%float] "error" 0.0%float
      match invoke scenario.times_out scenario.model_server_cmd with
      | WorkerError err => Text ("R prediction failed: " ++ err)
      | Timeout => StrOf TimeoutExpired
      | MalformedOutput _ => StrOf JSONDecodeError
      | Crashed e => py_str_exn e
      | Completed _ => Text ""
      end.
Proof.
  apply (model_server_failure_answers scenario.times_out model_server.init ∅
           scenario.record scenario.model_server_cmd); reflexivity.
Defined.

(** When the input leads to a command, the answer is a prediction exactly
    when the invocation completes with a document that has the three result
    fields and a numeric confidence; it then carries the probability as the
    only element of predictions, and the label and the confidence as the
    worker gave them. *)
Theorem model_server_prediction_passes_through
    (env : environment) (self : model_server.RModelServer) (fs : gset string)
    (X : pyval) (cmd : command) :
  model_server_command X = Some cmd ->
  ((exists ps b c, snd (model_server.predict env self fs X) = model_server.Prediction ps b c)
   <-> exists doc a b c,
         invoke env cmd = Completed doc
         /\ field doc "probability" = Some a
         /\ field doc "prediction" = Some b
         /\ field doc "confidence" = Some c
         /\ py_format_f c = Ok tt)
  /\ (forall doc a b c,
        invoke env cmd = Completed doc ->
        field doc "probability" = Some a ->
        field doc "prediction" = Some b ->
        field doc "confidence" = Some c ->
        py_format_f c = Ok tt ->
        snd (model_server.predict env self fs X) = model_server.Prediction [a] b c).
Proof.
  unfold model_server_command, model_server.predict.
  destruct (model_server.input_dict X) as [input_data|]; [|discriminate].
  destruct (json_dumps input_data) as [text|] eqn:Hd; [|discriminate].
  intros [= <-]. unfold invoke, model_server.run_prediction. rewrite Hd. cbn [bind].
  destruct (subprocess_run env _) as [process|e]; cbn [bind].
  2:{ split.
      - split; [intros [ps [b [c H]]]; discriminate H
               | intros [doc [a [b [c [H _]]]]]; destruct e; discriminate H].
      - intros doc a b c H. destruct e; discriminate H. }
  destruct (returncode process =? 0); cbn [negb].
  2:{ split.
      - split; [intros [ps [b [c H]]]; discriminate H
               | intros [doc [a [b [c [H _]]]]]; discriminate H].
      - intros doc a b c H. discriminate H. }
  destruct (json_loads env _) as [doc|].
  2:{ split.
      - split; [intros [ps [b [c H]]]; discriminate H
               | intros [doc [a [b [c [H _]]]]]; discriminate H].
      - intros doc a b c H. discriminate H. }
  split.
  - split.
    + destruct (py_getitem doc "probability") as [a|e] eqn:Ha; cbn [bind];
        [|intros [ps [b [c H]]]; discriminate H].
      destruct (py_getitem doc "prediction") as [b|e] eqn:Hb; cbn [bind];
        [|intros [ps [b' [c H]]]; discriminate H].
      destruct (py_getitem doc "confidence") as [c|e] eqn:Hcf; cbn [bind];
        [|intros [ps [b' [c H]]]; discriminate H].
      destruct (py_format_f c) as [u|e] eqn:Hf; cbn [bind];
        [|intros [ps [b' [c' H]]]; discriminate H].
      intros _. exists doc, a, b, c. repeat split; try (now apply getitem_ok_field).
      exact (format_ok_unit c u Hf).
    + intros [doc' [a [b [c [[= <-] [Ha [Hb [Hcf Hf]]]]]]]].
      apply getitem_ok_field in Ha, Hb, Hcf. rewrite Ha, Hb, Hcf. cbn [bind].
      rewrite Hf. cbn [bind snd]. eauto.
  - intros doc' a b c [= <-] Ha Hb Hcf Hf.
    apply getitem_ok_field in Ha, Hb, Hcf. rewrite Ha, Hb, Hcf. cbn [bind].
    rewrite Hf. reflexivity.
Qed.

Lemma model_server_prediction_passes_through_witness :
  snd (model_server.predict (scenario.answers scenario.approved_text) model_server.init ∅
         scenario.record)
  = model_server.Prediction [PFloat 0.75] (PStr "approved") (PFloat 0.5).
Proof.
  apply (proj2 (model_server_prediction_passes_through
                  (scenario.answers scenario.approved_text) model_server.init ∅
                  scenario.record scenario.model_server_cmd eq_refl)
               scenario.approved_doc); reflexivity.
Defined.

(** A numpy array of one axis and an integer dtype with at least five
    items is never predicted: iterating it gives numpy integers, [json.dump]
    refuses the record, the answer is the error dictionary and the temporary
    file stays on disk. *)
Theorem model_server_integer_array
    (env : environment) (self : model_server.RModelServer) (fs : gset string)
    (zs : list Z) :
  (5 <= length zs)%nat ->
  tmp_name env ∉ fs ->
  snd (model_server.predict env self fs (PNdarray [length zs] (map PInt zs)))
  = model_server.Error [0.0%float] "error" 0.0%float (StrOf TypeError)
  /\ snd (fst (model_server.predict env self fs (PNdarray [length zs] (map PInt zs))))
     = {[tmp_name env]} ∪ fs.
Proof.
  intros Hz Hfresh.
  destruct zs as [|z1 [|z2 [|z3 [|z4 [|z5 zs]]]]]; simpl in Hz; try lia.
  rewrite (model_server_predict_dump_fails env self fs _
             (PDict [("age", PNpInt z1); ("income", PNpInt z2); ("education", PNpInt z3);
                     ("experience", PNpInt z4); ("credit_score", PNpInt z5)]) TypeError)
    by reflexivity.
  split; reflexivity.
Qed.

Lemma model_server_integer_array_witness :
  snd (model_server.predict scenario.times_out model_server.init ∅
         (PNdarray [length [1; 2; 3; 4; 5; 6]] (map PInt [1; 2; 3; 4; 5; 6])))
  = model_server.Error [0.0%float] "error" 0.0%float (StrOf TypeError)
  /\ snd (fst (model_server.predict scenario.times_out model_server.init ∅
                 (PNdarray [length [1; 2; 3; 4; 5; 6]] (map PInt [1; 2; 3; 4; 5; 6]))))
     = {[tmp_name scenario.times_out]} ∪ ∅.
Proof.
  apply (model_server_integer_array scenario.times_out model_server.init ∅
           [1; 2; 3; 4; 5; 6]); [simpl; lia | set_solver].
Defined.

(** ** The published descriptions *)

(** The inputs the metadata of the REST server and of the model class
    declare are the five names of the validation, in its order: an object is
    accepted by the validation exactly when it has every declared input, and
    the example request of the root endpoint is one such object. The output
    the model class declares has shape [2], the length of the row predict
    returns for every input. *)
Theorem metadata_matches_validation
    (env : environment) (X : pyval) (record : list (string * pyval)) :
  map tensor_name (inputs (fst flask_model_server.metadata)) = flask_model_server.feature_names
  /\ map tensor_name (inputs seldon_model.init_metadata) = seldon_model.feature_names
  /\ (flask_model_server.missing_feature flask_model_server.feature_names (PDict record)
      = Ok None
      <-> forall t, In t (inputs (fst flask_model_server.metadata)) ->
                    dict_get record (tensor_name t) <> None)
  /\ flask_model_server.missing_feature flask_model_server.feature_names
       (example_request (fst flask_model_server.root)) = Ok None
  /\ (forall row, In row (seldon_model.predict env X) ->
        map tensor_shape (outputs seldon_model.init_metadata) = [[Z.of_nat (length row)]]).
Proof.
  split; [reflexivity|]. split; [reflexivity|]. split; [|split; [reflexivity|]].
  - rewrite missing_feature_dict.
    change flask_model_server.feature_names
      with (map tensor_name (inputs (fst flask_model_server.metadata))).
    split.
    + destruct (List.find _ _) as [f|] eqn:Hf; [discriminate|].
      intros _ t Ht. apply absent_false.
      apply (find_none _ _ Hf). now apply in_map.
    + intros Hall.
      destruct (List.find _ _) as [f|] eqn:Hf; [|reflexivity].
      apply find_some in Hf as [Hin Ha]. apply in_map_iff in Hin as [t [<- Ht]].
      apply absent_true in Ha. now elim (Hall t Ht).
  - intros row Hrow. rewrite seldon_predict_by_outcome in Hrow.
    destruct (seldon_command X) as [cmd|];
      [destruct (worker_probability (invoke env cmd))|];
      destruct Hrow as [<-|[]]; reflexivity.
Qed.

(** ** The label for any probability *)

Lemma SFcompare_finite_none (x : spec_float) (s : bool) (m : positive) (e : Z) :
  SFcompare x (S754_finite s m e) = None -> x = S754_nan.
Proof. destruct x as [sx|sx| |sx mx ex]; simpl; try discriminate; auto. Qed.

Lemma SFeqb_self (x : spec_float) :
  SFeqb x x = match x with S754_nan => false | _ => true end.
Proof.
  unfold SFeqb. destruct x as [s|s| |s m e]; simpl; try reflexivity.
  - now destruct s.
  - rewrite Z.compare_refl.
    assert (H : Pos.compare_cont Eq m m = Eq) by apply Pos.compare_cont_refl.
    destruct s; rewrite H; reflexivity.
Qed.

(** For every binary64 probability, also outside [0, 1]: the list carries
    it unchanged with the confidence abs(p - 0.5) * 2; the label is approved
    exactly when p > 0.5, denied exactly when p <= 0.5 (one half itself is
    denied), and missing exactly when p is NaN. *)
Theorem label_of_any_probability (p : float) :
  match flask_model_server.predict_loan p with
  | Rlist probability label confidence =>
      probability = p
      /\ confidence = (PrimFloat.abs (p - 0.5) * 2)%float
      /\ (label = Some "approved" <-> (0.5 <? p)%float = true)
      /\ (label = Some "denied" <-> (p <=? 0.5)%float = true)
      /\ (label = None <-> PrimFloat.is_nan p = true)
  end
  /\ seldon_model.r_script p = flask_model_server.predict_loan p
  /\ model_server.predict_loan p = flask_model_server.predict_loan p.
Proof.
  split; [|split; reflexivity].
  unfold flask_model_server.predict_loan, r_gt, PrimFloat.is_nan.
  rewrite FloatAxioms.compare_spec, FloatAxioms.ltb_spec, FloatAxioms.leb_spec,
    FloatAxioms.eqb_spec.
  unfold SFltb, SFleb. rewrite (SFcompare_swap (Prim2SF p) (Prim2SF 0.5%float)).
  rewrite SFeqb_self.
  assert (Hh : exists s m e, Prim2SF 0.5%float = S754_finite s m e)
    by (do 3 eexists; vm_compute; reflexivity).
  destruct Hh as [s [m [e Hh]]]. rewrite Hh.
  destruct (SFcompare (Prim2SF p) (S754_finite s m e)) as [[]|] eqn:E; simpl.
  1-3: assert (Hn : Prim2SF p <> S754_nan)
         by (intros Hn; rewrite Hn in E; discriminate E);
       destruct (Prim2SF p); try (now elim Hn);
       repeat split; intros; (discriminate || reflexivity).
  apply SFcompare_finite_none in E. rewrite E.
  repeat split; intros; (discriminate || reflexivity).
Qed.
